(** * EduManage storage layer: derived counters, rollups and student search

    A shallow embedding of [DatabaseStorage] (the storage class of the
    server) together with the table shapes of the shared schema.

    Modelling conventions.
    - A table is the list of its rows in insertion order, together with the
      value its [serial] id sequence gives next.  A [select] without
      [orderBy] yields the rows in table order.
    - [integer] columns and the JavaScript integers computed from them are
      elements of [Z]; the columns declared without [notNull] are options
      ([None] is SQL NULL).  The 32-bit range of the integer columns is
      modelled in [createBehaviour], the one method that writes a value it
      has computed without a bound; elsewhere a record carries values the
      columns take as they are.
    - A [date] is given in the form the column returns, YYYY-MM-DD, and
      texts are ASCII: [lower] folds the letters A to Z.
    - The two percentages are computed by the source with JavaScript number
      arithmetic ([/], [*], [Math.round]); they are modelled with IEEE-754
      binary64 operations from [SpecFloat].
    - The clock is an input: [today] is [new Date().toISOString()] cut at
      the letter T, [now] is the value used by [defaultNow()].
    - A method is a function from the store to the new store and a result;
      a thrown [Error] is the result [Throw]. *)

From Stdlib Require Import ZArith List String Ascii Bool Lia Permutation Sorted.
From Stdlib Require Import Floats.SpecFloat DecimalString.
Import ListNotations.
Local Open Scope string_scope.
Local Open Scope list_scope.
Local Open Scope Z_scope.

Set Implicit Arguments.

(** ** Table rows (shared schema) *)

Module Student.
Record t : Type := mk {
  id : Z;
  firstName : string;
  lastName : string;
  dateOfBirth : string;
  yearGroup : Z;
  tutorGroup : string;
  admissionDate : string;
  attendanceSessionsPossible : option Z;
  attendanceSessionsPresent : option Z;
  behaviourPoints : option Z
}.
End Student.

(** [insertStudentSchema] omits the id and the three counters. *)
Module InsertStudent.
Record t : Type := mk {
  firstName : string;
  lastName : string;
  dateOfBirth : string;
  yearGroup : Z;
  tutorGroup : string;
  admissionDate : string
}.
End InsertStudent.

Module Attendance.
Record t : Type := mk {
  id : Z;
  studentId : Z;
  date : string;
  session : string;
  status : string;
  recordedAt : option Z
}.
End Attendance.

Module InsertAttendance.
Record t : Type := mk {
  studentId : Z;
  date : string;
  session : string;
  status : string
}.
End InsertAttendance.

Module Behaviour.
Record t : Type := mk {
  id : Z;
  studentId : Z;
  type : string;
  category : string;
  points : Z;
  notes : option string;
  date : option Z
}.
End Behaviour.

Module InsertBehaviour.
Record t : Type := mk {
  studentId : Z;
  type : string;
  category : string;
  points : Z;
  notes : option string
}.
End InsertBehaviour.

Module Detention.
Record t : Type := mk {
  id : Z;
  studentId : Z;
  type : string;
  date : string;
  time : string;
  location : string;
  status : string;
  reason : option string
}.
End Detention.

(** [status] has a column default, so it is optional on insertion. *)
Module InsertDetention.
Record t : Type := mk {
  studentId : Z;
  type : string;
  date : string;
  time : string;
  location : string;
  status : option string;
  reason : option string
}.
End InsertDetention.

(** [Partial<InsertDetention>]: every field may be missing. *)
Module PartialDetention.
Record t : Type := mk {
  studentId : option Z;
  type : option string;
  date : option string;
  time : option string;
  location : option string;
  status : option string;
  reason : option (option string)
}.
End PartialDetention.

(** ** The store *)

Record Store : Type := mkStore {
  students : list Student.t;
  students_seq : Z;
  attendance : list Attendance.t;
  attendance_seq : Z;
  behaviour : list Behaviour.t;
  behaviour_seq : Z;
  detentions : list Detention.t;
  detentions_seq : Z
}.

Definition empty_store : Store :=
  mkStore [] 1 [] 1 [] 1 [] 1.

Inductive Result (A : Type) : Type :=
| Ok (a : A)
| Throw (message : string).

Arguments Ok {A} a.
Arguments Throw {A} message.

(** ** JavaScript helpers *)

(** [x || 0] on a nullable integer. *)
Definition orZero (x : option Z) : Z :=
  match x with
  | Some v => v
  | None => 0
  end.

(** Truthiness of the optional arguments of [searchStudents]. *)
Definition truthy_string (x : option string) : option string :=
  match x with
  | Some EmptyString => None
  | _ => x
  end.

Definition truthy_number (x : option Z) : option Z :=
  match x with
  | Some 0 => None
  | _ => x
  end.

(** [new Set(xs)] followed by [Array.from]: first occurrences, in order. *)
Definition Set_add (acc : list string) (x : string) : list string :=
  if existsb (String.eqb x) acc then acc else acc ++ [x].

Definition Set_from (xs : list string) : list string :=
  fold_left Set_add xs [].

(** *** Numbers

    The value of an arithmetic expression is a binary64 float; the result of
    [Math.round] is kept as an integer when it is finite. *)

Definition prec : Z := 53.
Definition emax : Z := 1024.

Definition number_of_Z (z : Z) : spec_float :=
  binary_normalize prec emax z 0 false.

Definition number_div : spec_float -> spec_float -> spec_float :=
  SFdiv prec emax.

Definition number_mul : spec_float -> spec_float -> spec_float :=
  SFmul prec emax.

Inductive number : Type :=
| Num (z : Z)
| NaN
| Infinity (negative : bool).

(** [Math.round x]: the integer closest to [x], ties towards +Infinity,
    that is the floor of [x + 1/2] taken exactly. *)
Definition Math_round (x : spec_float) : number :=
  match x with
  | S754_zero _ => Num 0
  | S754_infinity s => Infinity s
  | S754_nan => NaN
  | S754_finite s m e =>
      let n := if s then Z.neg m else Z.pos m in
      Num (if 0 <=? e then n * 2 ^ e
           else (2 * n + 2 ^ (- e)) / 2 ^ (- e + 1))
  end.

(** [x || 0] on a number. *)
Definition number_or_zero (x : number) : number :=
  match x with
  | NaN => Num 0
  | _ => x
  end.

(** [Math.round((a / b) * 100)] for integers [a] and [b]. *)
Definition round_percentage (a b : Z) : number :=
  Math_round (number_mul (number_div (number_of_Z a) (number_of_Z b))
                         (number_of_Z 100)).

(** *** Strings: [toLowerCase], SQL [lower] and [LIKE] (ASCII) *)

Definition lower_ascii (c : ascii) : ascii :=
  let n := N_of_ascii c in
  if ((65 <=? n) && (n <=? 90))%N then ascii_of_N (n + 32) else c.

Fixpoint lower (s : string) : string :=
  match s with
  | EmptyString => EmptyString
  | String c s' => String (lower_ascii c) (lower s')
  end.

(** SQL [text LIKE pattern] with the default escape character: [%] matches
    any run of characters, [_] any one character, a backslash makes the next
    pattern character literal.  (A pattern ending in a lone backslash is an
    error in PostgreSQL; the patterns built below always end in [%].) *)
Fixpoint like (pattern : string) : string -> bool :=
  match pattern with
  | EmptyString =>
      fun text => match text with EmptyString => true | _ => false end
  | String c p =>
      if Ascii.eqb c "%" then
        fix any_run (text : string) : bool :=
          like p text ||
          match text with
          | EmptyString => false
          | String _ text' => any_run text'
          end
      else if Ascii.eqb c "_" then
        fun text =>
          match text with
          | EmptyString => false
          | String _ text' => like p text'
          end
      else if Ascii.eqb c "\" then
        match p with
        | EmptyString => fun _ => false
        | String d p' =>
            fun text =>
              match text with
              | EmptyString => false
              | String x text' => Ascii.eqb x d && like p' text'
              end
        end
      else
        fun text =>
          match text with
          | EmptyString => false
          | String x text' => Ascii.eqb x c && like p text'
          end
  end.

(** ** Query helpers *)

(** [orderBy(desc(students.id))]. *)
Fixpoint insert_desc (s : Student.t) (l : list Student.t) : list Student.t :=
  match l with
  | [] => [s]
  | x :: l' =>
      if Student.id x <=? Student.id s then s :: l
      else x :: insert_desc s l'
  end.

Definition orderBy_desc_id (l : list Student.t) : list Student.t :=
  fold_right insert_desc [] l.

(** [update(table).set(f).where(p)]. *)
Definition update_where (A : Type) (p : A -> bool) (f : A -> A)
  (rows : list A) : list A :=
  map (fun r => if p r then f r else r) rows.

(** [delete(table).where(p)]. *)
Definition delete_where (A : Type) (p : A -> bool) (rows : list A) : list A :=
  filter (fun r => negb (p r)) rows.

(** [xs[xs.length - 1]]. *)
Definition last_element (A : Type) (xs : list A) : option A :=
  match rev xs with
  | [] => None
  | x :: _ => Some x
  end.

(** ** [DatabaseStorage] *)

Definition set_students (st : Store) (rows : list Student.t) : Store :=
  mkStore rows (students_seq st) (attendance st) (attendance_seq st)
          (behaviour st) (behaviour_seq st) (detentions st) (detentions_seq st).

Definition set_attendanceSessionsPresent (v : option Z) (s : Student.t)
  : Student.t :=
  Student.mk (Student.id s) (Student.firstName s) (Student.lastName s)
    (Student.dateOfBirth s) (Student.yearGroup s) (Student.tutorGroup s)
    (Student.admissionDate s) (Student.attendanceSessionsPossible s)
    v (Student.behaviourPoints s).

Definition set_behaviourPoints (v : option Z) (s : Student.t) : Student.t :=
  Student.mk (Student.id s) (Student.firstName s) (Student.lastName s)
    (Student.dateOfBirth s) (Student.yearGroup s) (Student.tutorGroup s)
    (Student.admissionDate s) (Student.attendanceSessionsPossible s)
    (Student.attendanceSessionsPresent s) v.

(** *** Students *)

Definition getStudents (st : Store) : list Student.t :=
  orderBy_desc_id (students st).

Definition getStudent (st : Store) (id : Z) : option Student.t :=
  find (fun s => Student.id s =? id) (students st).

(** The omitted counters take the column defaults 188, 188 and 0. *)
Definition createStudent (st : Store) (insertStudent : InsertStudent.t)
  : Store * Student.t :=
  let student :=
    Student.mk (students_seq st)
      (InsertStudent.firstName insertStudent)
      (InsertStudent.lastName insertStudent)
      (InsertStudent.dateOfBirth insertStudent)
      (InsertStudent.yearGroup insertStudent)
      (InsertStudent.tutorGroup insertStudent)
      (InsertStudent.admissionDate insertStudent)
      (Some 188) (Some 188) (Some 0) in
  (mkStore (students st ++ [student]) (students_seq st + 1)
           (attendance st) (attendance_seq st)
           (behaviour st) (behaviour_seq st)
           (detentions st) (detentions_seq st),
   student).

Definition full_name (s : Student.t) : string :=
  String.append (Student.firstName s)
    (String.append " " (Student.lastName s)).

Definition name_condition (query : string) (s : Student.t) : bool :=
  like (String.append "%" (String.append (lower query) "%"))
       (lower (full_name s)).

Definition search_conditions (query : option string) (yearGroup : option Z)
  (tutorGroup : option string) : list (Student.t -> bool) :=
  match truthy_string query with
  | Some q => [name_condition q]
  | None => []
  end ++
  match truthy_number yearGroup with
  | Some y => [fun s => Student.yearGroup s =? y]
  | None => []
  end ++
  match truthy_string tutorGroup with
  | Some g => [fun s => String.eqb (Student.tutorGroup s) g]
  | None => []
  end.

Definition searchStudents (st : Store) (query : option string)
  (yearGroup : option Z) (tutorGroup : option string) : list Student.t :=
  let conditions := search_conditions query yearGroup tutorGroup in
  match conditions with
  | [] => getStudents st
  | _ =>
      orderBy_desc_id
        (filter (fun s => forallb (fun c => c s) conditions) (students st))
  end.

(** *** Attendance *)

Definition recordAttendance (st : Store) (now : Z)
  (record : InsertAttendance.t) : Store * Attendance.t :=
  let att :=
    Attendance.mk (attendance_seq st)
      (InsertAttendance.studentId record) (InsertAttendance.date record)
      (InsertAttendance.session record) (InsertAttendance.status record)
      (Some now) in
  let st1 :=
    mkStore (students st) (students_seq st)
            (attendance st ++ [att]) (attendance_seq st + 1)
            (behaviour st) (behaviour_seq st)
            (detentions st) (detentions_seq st) in
  match getStudent st1 (InsertAttendance.studentId record) with
  | Some student =>
      let presentInc :=
        if negb (String.eqb (InsertAttendance.status record) "PRESENT")
           && negb (String.eqb (InsertAttendance.status record) "LATE")
        then -1 else 0 in
      (set_students st1
         (update_where
            (fun s => Student.id s =? InsertAttendance.studentId record)
            (set_attendanceSessionsPresent
               (Some (Z.max 0
                        (orZero (Student.attendanceSessionsPresent student)
                         + presentInc))))
            (students st1)),
       att)
  | None => (st1, att)
  end.

Definition present_today (today : string) (a : Attendance.t) : bool :=
  String.eqb (Attendance.date a) today
  && (String.eqb (Attendance.status a) "PRESENT"
      || String.eqb (Attendance.status a) "LATE").

Definition getAttendancePercentageToday (st : Store) (today : string)
  : number :=
  let allStudents := getStudents st in
  if Z.of_nat (List.length allStudents) =? 0 then Num 0
  else
    let present := filter (present_today today) (attendance st) in
    number_or_zero
      (round_percentage (Z.of_nat (List.length present))
                        (Z.of_nat (List.length allStudents))).

(** *** Behaviour *)

(** The range of an [integer] column. *)
Definition int4 (z : Z) : bool :=
  (-2147483648 <=? z) && (z <=? 2147483647).

(** The error of the database for an integer parameter outside the range. *)
Definition out_of_range (z : Z) : string :=
  String.append "value "
    (String.append (String (ascii_of_nat 34) EmptyString)
       (String.append (NilZero.string_of_int (Z.to_int z))
          (String.append (String (ascii_of_nat 34) EmptyString)
             " is out of range for type integer"))).

(** The two statements that write are not in a transaction: an error of
    the [update] leaves the inserted row in the table. *)
Definition createBehaviour (st : Store) (today : string) (now : Z)
  (record : InsertBehaviour.t) : Store * Result Behaviour.t :=
  let rejected : option string :=
    if InsertBehaviour.points record >? 0 then
      if negb (int4 (InsertBehaviour.studentId record)) then
        Some (out_of_range (InsertBehaviour.studentId record))
      else
        let todayAttendance :=
          filter
            (fun a =>
               (Attendance.studentId a =? InsertBehaviour.studentId record)
               && String.eqb (Attendance.date a) today)
            (attendance st) in
        match last_element todayAttendance with
        | Some lastMark =>
            if String.eqb (Attendance.status lastMark) "ABSENT_UNAUTH"
               || String.eqb (Attendance.status lastMark) "ABSENT_AUTH"
            then Some "Cannot award positive points to an absent student"
            else None
        | None => None
        end
    else None in
  match rejected with
  | Some message => (st, Throw message)
  | None =>
      if negb (int4 (InsertBehaviour.studentId record)) then
        (st, Throw (out_of_range (InsertBehaviour.studentId record)))
      else if negb (int4 (InsertBehaviour.points record)) then
        (st, Throw (out_of_range (InsertBehaviour.points record)))
      else
        let beh :=
          Behaviour.mk (behaviour_seq st)
            (InsertBehaviour.studentId record) (InsertBehaviour.type record)
            (InsertBehaviour.category record) (InsertBehaviour.points record)
            (InsertBehaviour.notes record) (Some now) in
        let st1 :=
          mkStore (students st) (students_seq st)
                  (attendance st) (attendance_seq st)
                  (behaviour st ++ [beh]) (behaviour_seq st + 1)
                  (detentions st) (detentions_seq st) in
        match getStudent st1 (InsertBehaviour.studentId record) with
        | Some student =>
            let newPoints :=
              orZero (Student.behaviourPoints student)
              + InsertBehaviour.points record in
            if negb (int4 newPoints) then
              (st1, Throw (out_of_range newPoints))
            else
              let st2 :=
                set_students st1
                  (update_where
                     (fun s =>
                        Student.id s =? InsertBehaviour.studentId record)
                     (set_behaviourPoints (Some newPoints))
                     (students st1)) in
              (* the detention trigger has an empty body *)
              if newPoints <=? -10 then (st2, Ok beh) else (st2, Ok beh)
        | None => (st1, Ok beh)
        end
  end.

(** *** Detentions *)

Definition createDetention (st : Store) (record : InsertDetention.t)
  : Store * Detention.t :=
  let det :=
    Detention.mk (detentions_seq st)
      (InsertDetention.studentId record) (InsertDetention.type record)
      (InsertDetention.date record) (InsertDetention.time record)
      (InsertDetention.location record)
      (match InsertDetention.status record with
       | Some v => v
       | None => "SCHEDULED"
       end)
      (InsertDetention.reason record) in
  (mkStore (students st) (students_seq st)
           (attendance st) (attendance_seq st)
           (behaviour st) (behaviour_seq st)
           (detentions st ++ [det]) (detentions_seq st + 1),
   det).

Definition patch (A : Type) (u : option A) (old : A) : A :=
  match u with
  | Some v => v
  | None => old
  end.

Definition apply_updates (updates : PartialDetention.t) (d : Detention.t)
  : Detention.t :=
  Detention.mk (Detention.id d)
    (patch (PartialDetention.studentId updates) (Detention.studentId d))
    (patch (PartialDetention.type updates) (Detention.type d))
    (patch (PartialDetention.date updates) (Detention.date d))
    (patch (PartialDetention.time updates) (Detention.time d))
    (patch (PartialDetention.location updates) (Detention.location d))
    (patch (PartialDetention.status updates) (Detention.status d))
    (patch (PartialDetention.reason updates) (Detention.reason d)).

(** The result is the first updated row, [undefined] when there is none.
    (With no field to set the query builder throws before the table is
    reached; the store is the same then, see [has_updates].) *)
Definition updateDetention (st : Store) (id : Z)
  (updates : PartialDetention.t) : Store * option Detention.t :=
  let rows :=
    update_where (fun d => Detention.id d =? id) (apply_updates updates)
                 (detentions st) in
  (mkStore (students st) (students_seq st)
           (attendance st) (attendance_seq st)
           (behaviour st) (behaviour_seq st)
           rows (detentions_seq st),
   find (fun d => Detention.id d =? id) rows).

Definition getDetentionsThisWeek (st : Store) : Z :=
  Z.of_nat (List.length (detentions st)).

Definition deleteStudent (st : Store) (id : Z) : Store :=
  mkStore
    (delete_where (fun s => Student.id s =? id) (students st))
    (students_seq st)
    (delete_where (fun a => Attendance.studentId a =? id) (attendance st))
    (attendance_seq st)
    (delete_where (fun b => Behaviour.studentId b =? id) (behaviour st))
    (behaviour_seq st)
    (delete_where (fun d => Detention.studentId d =? id) (detentions st))
    (detentions_seq st).

(** *** Dashboard *)

Record GroupAttendance : Type := mkGroupAttendance {
  name : string;
  present : number
}.

Definition group_members (allStudents : list Student.t) (group : string)
  : list Student.t :=
  filter (fun s => String.eqb (Student.tutorGroup s) group) allStudents.

Definition total_present (groupStudents : list Student.t) : Z :=
  fold_left
    (fun acc s => acc + orZero (Student.attendanceSessionsPresent s))
    groupStudents 0.

Definition group_attendance (allStudents : list Student.t) (group : string)
  : GroupAttendance :=
  let groupStudents := group_members allStudents group in
  let totalPossible := Z.of_nat (List.length groupStudents) * 188 in
  let totalPresent := total_present groupStudents in
  mkGroupAttendance group
    (if totalPossible >? 0 then round_percentage totalPresent totalPossible
     else Num 0).

Definition getTutorGroupAttendance (st : Store) : list GroupAttendance :=
  let allStudents := getStudents st in
  let groups := Set_from (map Student.tutorGroup allStudents) in
  map (group_attendance allStudents) groups.

(** ** Sequences of calls *)

Inductive Call : Type :=
| CreateStudent (insertStudent : InsertStudent.t)
| DeleteStudent (id : Z)
| RecordAttendance (now : Z) (record : InsertAttendance.t)
| CreateBehaviour (today : string) (now : Z) (record : InsertBehaviour.t)
| CreateDetention (record : InsertDetention.t)
| UpdateDetention (id : Z) (updates : PartialDetention.t)
| SearchStudents (query : option string) (yearGroup : option Z)
    (tutorGroup : option string)
| GetDetentionsThisWeek.

(** The store after one call; the reads leave it as it is. *)
Definition call (st : Store) (c : Call) : Store :=
  match c with
  | CreateStudent r => fst (createStudent st r)
  | DeleteStudent id => deleteStudent st id
  | RecordAttendance now r => fst (recordAttendance st now r)
  | CreateBehaviour today now r => fst (createBehaviour st today now r)
  | CreateDetention r => fst (createDetention st r)
  | UpdateDetention id u => fst (updateDetention st id u)
  | SearchStudents _ _ _ => st
  | GetDetentionsThisWeek => st
  end.

Definition run (st : Store) (calls : list Call) : Store :=
  fold_left call calls st.

(** ** The specification's formulas

    Definitions that follow the wording of the specification, to be
    compared with the functions above. *)

(** [round (a / b)] in exact arithmetic, halves upwards ([0 < b]). *)
Definition round_half_up (a b : Z) : Z :=
  (2 * a + b) / (2 * b).

(** The students with a PRESENT/LATE mark today. *)
Definition students_marked_today (st : Store) (today : string)
  : list Student.t :=
  filter
    (fun s =>
       existsb
         (fun a => (Attendance.studentId a =? Student.id s)
                   && present_today today a)
         (attendance st))
    (students st).

(** [round (100 * |students with a PRESENT/LATE mark today| / |students|)],
    0 without students. *)
Definition spec_attendancePercentageToday (st : Store) (today : string) : Z :=
  match students st with
  | [] => 0
  | _ =>
      round_half_up
        (100 * Z.of_nat (List.length (students_marked_today st today)))
        (Z.of_nat (List.length (students st)))
  end.

(** [round (100 * sum attendanceSessionsPresent / (188 * |members|))],
    0 for an empty group. *)
Definition spec_group_percentage (members : list Student.t) : Z :=
  match members with
  | [] => 0
  | _ =>
      round_half_up
        (100 * total_present members)
        (188 * Z.of_nat (List.length members))
  end.

(** [needle] occurs in [text]. *)
Definition substring (needle text : string) : Prop :=
  exists before after,
    text = String.append before (String.append needle after).

Fixpoint is_prefix (needle text : string) : bool :=
  match needle, text with
  | EmptyString, _ => true
  | String _ _, EmptyString => false
  | String a needle', String b text' => Ascii.eqb a b && is_prefix needle' text'
  end.

Fixpoint is_substring (needle text : string) : bool :=
  is_prefix needle text ||
  match text with
  | EmptyString => false
  | String _ text' => is_substring needle text'
  end.

(** The logical AND of the supplied filters. *)
Definition spec_matches (query : option string) (yearGroup : option Z)
  (tutorGroup : option string) (s : Student.t) : bool :=
  match query with
  | Some q => is_substring (lower q) (lower (full_name s))
  | None => true
  end
  && match yearGroup with
     | Some y => Student.yearGroup s =? y
     | None => true
     end
  && match tutorGroup with
     | Some g => String.eqb (Student.tutorGroup s) g
     | None => true
     end.

(** The statuses the schema lists for an absence. *)
Definition schema_absence_statuses : list string :=
  ["ABSENT"; "AUTH_ABSENT"; "UNAUTH_ABSENT"].

(** A query without the [LIKE] metacharacters. *)
Fixpoint plain (s : string) : bool :=
  match s with
  | EmptyString => true
  | String c s' =>
      negb (Ascii.eqb c "%") && negb (Ascii.eqb c "_")
      && negb (Ascii.eqb c "\") && plain s'
  end.

(** ** Invariants and frames *)

(** [0 <= attendanceSessionsPresent <= attendanceSessionsPossible]. *)
Definition counters_in_range (s : Student.t) : Prop :=
  exists present possible,
    Student.attendanceSessionsPresent s = Some present /\
    Student.attendanceSessionsPossible s = Some possible /\
    0 <= present <= possible.

(** The counters of a student created by [createStudent] and marked since:
    188 possible sessions, and between 0 and 188 of them attended. *)
Definition baseline (s : Student.t) : Prop :=
  Student.attendanceSessionsPossible s = Some 188 /\
  exists present,
    Student.attendanceSessionsPresent s = Some present /\
    0 <= present <= 188.

(** Two rows that agree on every field but [attendanceSessionsPresent]. *)
Definition same_but_present (s s' : Student.t) : Prop :=
  Student.id s' = Student.id s /\
  Student.firstName s' = Student.firstName s /\
  Student.lastName s' = Student.lastName s /\
  Student.dateOfBirth s' = Student.dateOfBirth s /\
  Student.yearGroup s' = Student.yearGroup s /\
  Student.tutorGroup s' = Student.tutorGroup s /\
  Student.admissionDate s' = Student.admissionDate s /\
  Student.attendanceSessionsPossible s' = Student.attendanceSessionsPossible s /\
  Student.behaviourPoints s' = Student.behaviourPoints s.

(** ** Batches of behaviour records *)




Definition points_of (st : Store) (sid : Z) : option Z :=
  match getStudent st sid with
  | Some s => Student.behaviourPoints s
  | None => None
  end.

(** ** Auxiliary definitions *)

(** The guard of [createBehaviour]. *)
Definition guard_fires (st : Store) (today : string)
  (record : InsertBehaviour.t) : bool :=
  if InsertBehaviour.points record >? 0 then
    match
      last_element
        (filter
           (fun a =>
              (Attendance.studentId a =? InsertBehaviour.studentId record)
              && String.eqb (Attendance.date a) today)
           (attendance st))
    with
    | Some lastMark =>
        String.eqb (Attendance.status lastMark) "ABSENT_UNAUTH"
        || String.eqb (Attendance.status lastMark) "ABSENT_AUTH"
    | None => false
    end
  else false.

Definition inserted_behaviour (st : Store) (now : Z)
  (record : InsertBehaviour.t) : Behaviour.t :=
  Behaviour.mk (behaviour_seq st)
    (InsertBehaviour.studentId record) (InsertBehaviour.type record)
    (InsertBehaviour.category record) (InsertBehaviour.points record)
    (InsertBehaviour.notes record) (Some now).

(** The error thrown before anything is written, if any. *)
Definition rejection (st : Store) (today : string)
  (record : InsertBehaviour.t) : option string :=
  if (InsertBehaviour.points record >? 0)
     && negb (int4 (InsertBehaviour.studentId record))
  then Some (out_of_range (InsertBehaviour.studentId record))
  else if guard_fires st today record
  then Some "Cannot award positive points to an absent student"
  else if negb (int4 (InsertBehaviour.studentId record))
  then Some (out_of_range (InsertBehaviour.studentId record))
  else if negb (int4 (InsertBehaviour.points record))
  then Some (out_of_range (InsertBehaviour.points record))
  else None.

(** The total the [update] is to write. *)
Definition new_total (st : Store) (record : InsertBehaviour.t) : Z :=
  orZero (points_of st (InsertBehaviour.studentId record))
  + InsertBehaviour.points record.

(** The student exists and the new total is outside the range. *)
Definition overflows (st : Store) (record : InsertBehaviour.t) : bool :=
  match getStudent st (InsertBehaviour.studentId record) with
  | Some _ => negb (int4 (new_total st record))
  | None => false
  end.

(** The store after the [insert]. *)
Definition after_insert (st : Store) (now : Z) (record : InsertBehaviour.t)
  : Store :=
  mkStore (students st) (students_seq st)
          (attendance st) (attendance_seq st)
          (behaviour st ++ [inserted_behaviour st now record])
          (behaviour_seq st + 1)
          (detentions st) (detentions_seq st).

(** The store after the [insert] and the [update]. *)
Definition after_update (st : Store) (now : Z) (record : InsertBehaviour.t)
  : Store :=
  mkStore
    (match getStudent st (InsertBehaviour.studentId record) with
     | Some student =>
         update_where
           (fun s => Student.id s =? InsertBehaviour.studentId record)
           (set_behaviourPoints
              (Some (orZero (Student.behaviourPoints student)
                     + InsertBehaviour.points record)))
           (students st)
     | None => students st
     end)
    (students_seq st)
    (attendance st) (attendance_seq st)
    (behaviour st ++ [inserted_behaviour st now record])
    (behaviour_seq st + 1)
    (detentions st) (detentions_seq st).


(** Descending order of ids. *)
Definition id_desc (a b : Student.t) : Prop :=
  Student.id b <= Student.id a.

(** ** Sample data *)

Definition student_A : InsertStudent.t :=
  InsertStudent.mk "Ann" "Lee" "2012-03-04" 7 "7A" "2023-09-01".

Definition student_B : InsertStudent.t :=
  InsertStudent.mk "Bob" "Ray" "2012-05-06" 7 "7A" "2023-09-01".

Definition mark (sid : Z) (session status : string) : InsertAttendance.t :=
  InsertAttendance.mk sid "2024-01-15" session status.

Definition disruption (sid : Z) : InsertBehaviour.t :=
  InsertBehaviour.mk sid "NEGATIVE" "DISRUPTION" (-10) None.

Definition achievement (sid : Z) : InsertBehaviour.t :=
  InsertBehaviour.mk sid "POSITIVE" "ACHIEVEMENT" 5 None.

(** One student, marked ABSENT this morning. *)
Definition absent_this_morning : Store :=
  run empty_store
    [CreateStudent student_A; RecordAttendance 1000 (mark 1 "AM" "ABSENT")].

(** One student, marked PRESENT in both sessions of the day. *)
Definition present_all_day : Store :=
  run empty_store
    [CreateStudent student_A;
     RecordAttendance 1000 (mark 1 "AM" "PRESENT");
     RecordAttendance 2000 (mark 1 "PM" "PRESENT")].

(** Two students of tutor group 7A with full attendance. *)
Definition two_in_7A : Store :=
  run empty_store [CreateStudent student_A; CreateStudent student_B].

Definition absences (sid : Z) (n : nat) : list Call :=
  repeat (RecordAttendance 1000 (mark sid "AM" "ABSENT")) n.

(** Ten students of tutor group 7A; nine have missed 80 sessions and one
    has missed 79, so 1081 of the 1880 sessions were attended (57.5%). *)
Definition ten_in_7A : Store :=
  run empty_store
    (repeat (CreateStudent student_A) 10
     ++ flat_map (fun sid => absences sid 80) [1; 2; 3; 4; 5; 6; 7; 8; 9]
     ++ absences 10 79).

(** A student whose total is 5 before the incident. *)
Definition five_points : Store :=
  run empty_store
    [CreateStudent student_A;
     CreateBehaviour "2024-01-15" 500 (achievement 1)].

(** A student whose total is 0 before the incident. *)
Definition zero_points : Store :=
  run empty_store
    [CreateStudent student_A;
     CreateBehaviour "2024-01-15" 500
       (InsertBehaviour.mk 1 "POSITIVE" "ACHIEVEMENT" 0 None)].

(** Two students of different year and tutor groups. *)
Definition student_C : InsertStudent.t :=
  InsertStudent.mk "Cy" "Orr" "2011-07-08" 8 "8B" "2022-09-01".

Definition two_years : Store :=
  run empty_store [CreateStudent student_A; CreateStudent student_C].

(** ** Further methods of [DatabaseStorage] *)

(** [orderBy] with a test that tells whether a row may come before
    another.  The source leaves the order of rows that compare equal to the
    database; what is proved of an ordered result holds for every order of
    such rows. *)
Fixpoint insert_by (A : Type) (first : A -> A -> bool) (x : A) (l : list A)
  : list A :=
  match l with
  | [] => [x]
  | y :: l' => if first x y then x :: l else y :: insert_by first x l'
  end.

Definition orderBy (A : Type) (first : A -> A -> bool) (l : list A) : list A :=
  fold_right (insert_by first) [] l.

(** [desc] on a [date] column; the dates are ISO strings, whose order is the
    order of the days. *)
Definition date_desc (a b : string) : bool :=
  String.leb b a.

(** [desc] on a nullable [timestamp] column: NULL comes first. *)
Definition timestamp_desc (a b : option Z) : bool :=
  match a, b with
  | None, _ => true
  | Some _, None => false
  | Some x, Some y => y <=? x
  end.

Definition getStudentAttendance (st : Store) (studentId : Z)
  : list Attendance.t :=
  orderBy (fun a b => date_desc (Attendance.date a) (Attendance.date b))
    (filter (fun a => Attendance.studentId a =? studentId) (attendance st)).

Definition getStudentBehaviour (st : Store) (studentId : Z)
  : list Behaviour.t :=
  orderBy (fun a b => timestamp_desc (Behaviour.date a) (Behaviour.date b))
    (filter (fun b => Behaviour.studentId b =? studentId) (behaviour st)).

Definition getDetentions (st : Store) : list Detention.t :=
  orderBy (fun a b => date_desc (Detention.date a) (Detention.date b))
    (detentions st).

(** A batch of marks, recorded one after the other. *)
Definition recordAll (st : Store) (marks : list (Z * InsertAttendance.t))
  : Store :=
  fold_left (fun s m => fst (recordAttendance s (fst m) (snd m))) marks st.

Definition counts_as_absence (sid : Z) (m : Z * InsertAttendance.t) : bool :=
  (InsertAttendance.studentId (snd m) =? sid)
  && negb (String.eqb (InsertAttendance.status (snd m)) "PRESENT")
  && negb (String.eqb (InsertAttendance.status (snd m)) "LATE").

(** Two rows that agree on every field but [behaviourPoints]. *)
Definition same_but_points (s s' : Student.t) : Prop :=
  Student.id s' = Student.id s /\
  Student.firstName s' = Student.firstName s /\
  Student.lastName s' = Student.lastName s /\
  Student.dateOfBirth s' = Student.dateOfBirth s /\
  Student.yearGroup s' = Student.yearGroup s /\
  Student.tutorGroup s' = Student.tutorGroup s /\
  Student.admissionDate s' = Student.admissionDate s /\
  Student.attendanceSessionsPossible s' = Student.attendanceSessionsPossible s /\
  Student.attendanceSessionsPresent s' = Student.attendanceSessionsPresent s.

(** The ids handed out so far: all below the sequence, none twice. *)
Definition fresh_ids (st : Store) : Prop :=
  Forall (fun s => Student.id s < students_seq st) (students st) /\
  NoDup (map Student.id (students st)).

(** At least one field to set.  ([set] with no field is refused by the
    query builder before the table is reached.) *)
Definition has_updates (u : PartialDetention.t) : bool :=
  match PartialDetention.studentId u with Some _ => true | None => false end
  || match PartialDetention.type u with Some _ => true | None => false end
  || match PartialDetention.date u with Some _ => true | None => false end
  || match PartialDetention.time u with Some _ => true | None => false end
  || match PartialDetention.location u with Some _ => true | None => false end
  || match PartialDetention.status u with Some _ => true | None => false end
  || match PartialDetention.reason u with Some _ => true | None => false end.

(** A text of ASCII characters: on these [toLowerCase] and SQL [lower]
    are [lower]. *)
Fixpoint ascii_text (text : string) : bool :=
  match text with
  | EmptyString => true
  | String c text' => (N_of_ascii c <? 128)%N && ascii_text text'
  end.

Definition is_digit (c : ascii) : bool :=
  ((48 <=? N_of_ascii c) && (N_of_ascii c <=? 57))%N.

(** A text of the form YYYY-MM-DD, the form in which a [date] column
    returns a date and in which the source writes today's date. *)
Definition iso_date (text : string) : bool :=
  match text with
  | String y1 (String y2 (String y3 (String y4 (String s1
      (String m1 (String m2 (String s2
        (String d1 (String d2 EmptyString))))))))) =>
      is_digit y1 && is_digit y2 && is_digit y3 && is_digit y4
      && Ascii.eqb s1 "-" && is_digit m1 && is_digit m2
      && Ascii.eqb s2 "-" && is_digit d1 && is_digit d2
  | _ => false
  end.

(** ** Users and timetables

    These methods read and write tables of their own. *)

Module User.
Record t : Type := mk {
  id : Z;
  username : string;
  password : string;
  name : string;
  role : string
}.
End User.

(** [name] and [role] have column defaults. *)
Module InsertUser.
Record t : Type := mk {
  username : string;
  password : string;
  name : option string;
  role : option string
}.
End InsertUser.

Module Timetable.
Record t : Type := mk {
  id : Z;
  tutorGroup : string;
  dayOfWeek : Z;
  period : Z;
  subject : string;
  room : string;
  teacherId : Z
}.
End Timetable.

Module InsertTimetable.
Record t : Type := mk {
  tutorGroup : string;
  dayOfWeek : Z;
  period : Z;
  subject : string;
  room : string;
  teacherId : Z
}.
End InsertTimetable.

Record Registry : Type := mkRegistry {
  users : list User.t;
  users_seq : Z;
  timetables : list Timetable.t;
  timetables_seq : Z
}.

Definition empty_registry : Registry :=
  mkRegistry [] 1 [] 1.

Definition getUser (reg : Registry) (id : Z) : option User.t :=
  find (fun u => User.id u =? id) (users reg).

Definition getUserByUsername (reg : Registry) (username : string)
  : option User.t :=
  find (fun u => String.eqb (User.username u) username) (users reg).

Definition getUsers (reg : Registry) : list User.t :=
  users reg.

Definition double_quote : string :=
  String (ascii_of_nat 34) EmptyString.

(** The error of the unique index on [username]. *)
Definition username_taken : string :=
  String.append "duplicate key value violates unique constraint "
    (String.append double_quote
       (String.append "users_username_unique" double_quote)).

(** The id is drawn from the sequence before the unique index is checked,
    so a refused insertion uses up an id. *)
Definition createUser (reg : Registry) (insertUser : InsertUser.t)
  : Registry * Result User.t :=
  let user :=
    User.mk (users_seq reg)
      (InsertUser.username insertUser) (InsertUser.password insertUser)
      (match InsertUser.name insertUser with
       | Some v => v
       | None => "Staff Member"
       end)
      (match InsertUser.role insertUser with
       | Some v => v
       | None => "admin"
       end) in
  if existsb
       (fun u => String.eqb (User.username u) (InsertUser.username insertUser))
       (users reg)
  then
    (mkRegistry (users reg) (users_seq reg + 1)
                (timetables reg) (timetables_seq reg),
     Throw username_taken)
  else
    (mkRegistry (users reg ++ [user]) (users_seq reg + 1)
                (timetables reg) (timetables_seq reg),
     Ok user).

Definition deleteUser (reg : Registry) (id : Z) : Registry :=
  mkRegistry (delete_where (fun u => User.id u =? id) (users reg))
             (users_seq reg) (timetables reg) (timetables_seq reg).

Definition getTimetables (reg : Registry) : list Timetable.t :=
  timetables reg.

Definition createTimetable (reg : Registry) (record : InsertTimetable.t)
  : Registry * Timetable.t :=
  let tt :=
    Timetable.mk (timetables_seq reg)
      (InsertTimetable.tutorGroup record) (InsertTimetable.dayOfWeek record)
      (InsertTimetable.period record) (InsertTimetable.subject record)
      (InsertTimetable.room record) (InsertTimetable.teacherId record) in
  (mkRegistry (users reg) (users_seq reg)
              (timetables reg ++ [tt]) (timetables_seq reg + 1),
   tt).

Definition getTimetableByGroup (reg : Registry) (tutorGroup : string)
  : list Timetable.t :=
  filter (fun t => String.eqb (Timetable.tutorGroup t) tutorGroup)
         (timetables reg).

Definition deleteTimetable (reg : Registry) (id : Z) : Registry :=
  mkRegistry (users reg) (users_seq reg)
             (delete_where (fun t => Timetable.id t =? id) (timetables reg))
             (timetables_seq reg).

Inductive RegistryCall : Type :=
| CreateUser (insertUser : InsertUser.t)
| DeleteUser (id : Z)
| CreateTimetable (record : InsertTimetable.t)
| DeleteTimetable (id : Z).

Definition registry_call (reg : Registry) (c : RegistryCall) : Registry :=
  match c with
  | CreateUser u => fst (createUser reg u)
  | DeleteUser id => deleteUser reg id
  | CreateTimetable r => fst (createTimetable reg r)
  | DeleteTimetable id => deleteTimetable reg id
  end.

Definition run_registry (reg : Registry) (calls : list RegistryCall)
  : Registry :=
  fold_left registry_call calls reg.

(** The user ids and names handed out so far. *)
Definition users_unique (reg : Registry) : Prop :=
  Forall (fun u => User.id u < users_seq reg) (users reg) /\
  NoDup (map User.id (users reg)) /\
  NoDup (map User.username (users reg)).

Definition timetable_ids_fresh (reg : Registry) : Prop :=
  Forall (fun t => Timetable.id t < timetables_seq reg) (timetables reg).

(** ** [buildUrl] (shared routes)

    [params] is given by its entries, in the order of [Object.entries], each
    value by its [String] image. *)

(** [text.slice(n)]. *)
Fixpoint drop (n : nat) (text : string) : string :=
  match n, text with
  | O, _ => text
  | S _, EmptyString => EmptyString
  | S n', String _ text' => drop n' text'
  end.

(** The text before and after the first occurrence of [pattern]. *)
Fixpoint split_first (pattern text : string) : option (string * string) :=
  if is_prefix pattern text then
    Some (EmptyString, drop (String.length pattern) text)
  else
    match text with
    | EmptyString => None
    | String c text' =>
        match split_first pattern text' with
        | Some (before, after) => Some (String c before, after)
        | None => None
        end
    end.

(** The replacement text of [String.prototype.replace] for a string
    pattern: [$$] is a dollar sign, [$&] the matched text, [$`] the text
    before the match, [$'] the text after it; any other dollar sign stands
    for itself. *)
Fixpoint get_substitution (matched before after template : string) : string :=
  match template with
  | EmptyString => EmptyString
  | String c rest =>
      if Ascii.eqb c "$" then
        match rest with
        | EmptyString => String c EmptyString
        | String d rest' =>
            if Ascii.eqb d "$" then
              String "$" (get_substitution matched before after rest')
            else if Ascii.eqb d "&" then
              String.append matched
                (get_substitution matched before after rest')
            else if Ascii.eqb d "`" then
              String.append before
                (get_substitution matched before after rest')
            else if Ascii.eqb d "'" then
              String.append after
                (get_substitution matched before after rest')
            else String c (get_substitution matched before after rest)
        end
      else String c (get_substitution matched before after rest)
  end.

(** [text.includes(pattern)]. *)
Definition includes (text pattern : string) : bool :=
  is_substring pattern text.

(** [text.replace(pattern, replacement)] for a string [pattern]: the first
    occurrence only. *)
Definition replace (text pattern replacement : string) : string :=
  match split_first pattern text with
  | Some (before, after) =>
      String.append before
        (String.append (get_substitution pattern before after replacement)
                       after)
  | None => text
  end.

Definition placeholder (key : string) : string :=
  String ":" key.

Definition buildUrl (path : string) (params : option (list (string * string)))
  : string :=
  match params with
  | Some entries =>
      fold_left
        (fun url entry =>
           if includes url (placeholder (fst entry))
           then replace url (placeholder (fst entry)) (snd entry)
           else url)
        entries path
  | None => path
  end.

(** A text without the character [c]. *)
Fixpoint without (c : ascii) (text : string) : bool :=
  match text with
  | EmptyString => true
  | String x text' => negb (Ascii.eqb x c) && without c text'
  end.

(** * Properties *)

(** ** Rows selected and updated by id *)

Section ById.

Variable f : Student.t -> Student.t.
Hypothesis f_keeps_id : forall s, Student.id (f s) = Student.id s.

Lemma find_update_same (sid : Z) (rows : list Student.t) :
  find (fun s => Student.id s =? sid)
       (update_where (fun s => Student.id s =? sid) f rows)
  = option_map f (find (fun s => Student.id s =? sid) rows).
Proof.
  unfold update_where.
  induction rows as [|r rows IH]; simpl; [reflexivity|].
  destruct (Student.id r =? sid) eqn:E.
  - rewrite f_keeps_id, E. reflexivity.
  - rewrite E. exact IH.
Qed.

Lemma find_update_other (sid other : Z) (rows : list Student.t) :
  other <> sid ->
  find (fun s => Student.id s =? other)
       (update_where (fun s => Student.id s =? sid) f rows)
  = find (fun s => Student.id s =? other) rows.
Proof.
  intros Hne. unfold update_where.
  induction rows as [|r rows IH]; simpl; [reflexivity|].
  destruct (Student.id r =? sid) eqn:E.
  - rewrite f_keeps_id.
    apply Z.eqb_eq in E.
    assert ((Student.id r =? other) = false) as -> by (apply Z.eqb_neq; lia).
    exact IH.
  - destruct (Student.id r =? other); [reflexivity | exact IH].
Qed.

End ById.

Lemma getStudent_In (st : Store) (sid : Z) (s : Student.t) :
  getStudent st sid = Some s -> In s (students st) /\ Student.id s = sid.
Proof.
  unfold getStudent. intros H. apply find_some in H.
  destruct H as [Hin Hid]. split; [exact Hin | now apply Z.eqb_eq].
Qed.

(** ** [recordAttendance] *)

(** The two shapes of the result of [recordAttendance]. *)
Lemma recordAttendance_eq (st : Store) (now : Z) (record : InsertAttendance.t) :
  let att :=
    Attendance.mk (attendance_seq st)
      (InsertAttendance.studentId record) (InsertAttendance.date record)
      (InsertAttendance.session record) (InsertAttendance.status record)
      (Some now) in
  recordAttendance st now record =
  (mkStore
     (match getStudent st (InsertAttendance.studentId record) with
      | Some student =>
          update_where
            (fun s => Student.id s =? InsertAttendance.studentId record)
            (set_attendanceSessionsPresent
               (Some (Z.max 0
                  (orZero (Student.attendanceSessionsPresent student)
                   + (if negb (String.eqb (InsertAttendance.status record)
                                          "PRESENT")
                         && negb (String.eqb (InsertAttendance.status record)
                                             "LATE")
                      then -1 else 0)))))
            (students st)
      | None => students st
      end)
     (students_seq st)
     (attendance st ++ [att]) (attendance_seq st + 1)
     (behaviour st) (behaviour_seq st)
     (detentions st) (detentions_seq st),
   att).
Proof.
  unfold recordAttendance, getStudent; simpl.
  destruct (find _ (students st)); reflexivity.
Qed.

Lemma update_where_Forall2 (A : Type) (p : A -> bool) (f : A -> A)
  (R : A -> A -> Prop) (rows : list A) :
  (forall r, p r = true -> R r (f r)) ->
  (forall r, p r = false -> R r r) ->
  Forall2 R rows (update_where p f rows).
Proof.
  intros Hyes Hno. unfold update_where.
  induction rows as [|r rows IH]; simpl; constructor; [|exact IH].
  destruct (p r) eqn:E; auto.
Qed.

Lemma Forall2_diag (A : Type) (R : A -> A -> Prop) (rows : list A) :
  (forall r, R r r) -> Forall2 R rows rows.
Proof.
  intros HR. induction rows; constructor; auto.
Qed.

Lemma same_but_present_refl (s : Student.t) : same_but_present s s.
Proof. unfold same_but_present. repeat split. Qed.

Lemma same_but_present_set (v : option Z) (s : Student.t) :
  same_but_present s (set_attendanceSessionsPresent v s).
Proof. unfold same_but_present. simpl. repeat split. Qed.

(** C10.  Frame of [recordAttendance]: for every store and record, the
    Behaviour and Detention tables are unchanged, the existing Attendance
    rows are kept (one row is appended), and row by row the Students table
    changes at most in [attendanceSessionsPresent], and only in rows whose
    id is the record's [studentId]. *)
Theorem recordAttendance_frame :
  forall (st : Store) (now : Z) (record : InsertAttendance.t),
    let st' := fst (recordAttendance st now record) in
    behaviour st' = behaviour st /\
    detentions st' = detentions st /\
    attendance st' = attendance st ++ [snd (recordAttendance st now record)] /\
    Forall2
      (fun s s' =>
         same_but_present s s' /\
         (Student.id s <> InsertAttendance.studentId record -> s' = s))
      (students st) (students st').
Proof.
  intros st now record. rewrite recordAttendance_eq. simpl.
  repeat split.
  destruct (getStudent st (InsertAttendance.studentId record)) as [student|].
  - apply update_where_Forall2.
    + intros r Hr. split; [apply same_but_present_set|].
      apply Z.eqb_eq in Hr. intros Hne. contradiction.
    + intros r _. split; [apply same_but_present_refl | reflexivity].
  - apply Forall2_diag. intros r.
    split; [apply same_but_present_refl | reflexivity].
Qed.




(** ** The outcomes of [createBehaviour] *)

(** An error before the [insert] leaves the store as it was; an error of
    the [update] leaves the inserted row; otherwise both statements have
    run. *)
Lemma createBehaviour_eq (st : Store) (today : string) (now : Z)
  (record : InsertBehaviour.t) :
  createBehaviour st today now record =
  match rejection st today record with
  | Some message => (st, Throw message)
  | None =>
      if overflows st record then
        (after_insert st now record,
         Throw (out_of_range (new_total st record)))
      else
        (after_update st now record,
         Ok (inserted_behaviour st now record))
  end.
Proof.
  unfold createBehaviour, rejection, guard_fires, overflows, new_total,
    points_of, after_insert, after_update, inserted_behaviour, getStudent.
  cbn [students set_students].
  destruct (InsertBehaviour.points record >? 0);
    destruct (int4 (InsertBehaviour.studentId record));
    cbn [negb andb]; try reflexivity.
  - destruct (last_element _) as [lastMark|].
    + destruct (String.eqb (Attendance.status lastMark) "ABSENT_UNAUTH"
                || String.eqb (Attendance.status lastMark) "ABSENT_AUTH");
        [reflexivity|].
      destruct (int4 (InsertBehaviour.points record)); cbn [negb];
        [|reflexivity].
      destruct (find _ (students st)) as [student|]; [|reflexivity].
      destruct (int4 _); cbn [negb]; [|reflexivity].
      destruct (_ <=? -10); reflexivity.
    + destruct (int4 (InsertBehaviour.points record)); cbn [negb];
        [|reflexivity].
      destruct (find _ (students st)) as [student|]; [|reflexivity].
      destruct (int4 _); cbn [negb]; [|reflexivity].
      destruct (_ <=? -10); reflexivity.
  - destruct (int4 (InsertBehaviour.points record)); cbn [negb];
      [|reflexivity].
    destruct (find _ (students st)) as [student|]; [|reflexivity].
    destruct (int4 _); cbn [negb]; [|reflexivity].
    destruct (_ <=? -10); reflexivity.
Qed.

(** ** The attendance counters stay in range *)

Lemma baseline_in_range (s : Student.t) : baseline s -> counters_in_range s.
Proof.
  intros [Hposs [p [Hp Hrange]]]. exists p, 188. auto.
Qed.

Lemma baseline_set_behaviourPoints (v : option Z) (s : Student.t) :
  baseline s -> baseline (set_behaviourPoints v s).
Proof. intros H. exact H. Qed.

Lemma baseline_set_present (v : Z) (s : Student.t) :
  0 <= v <= 188 -> baseline s ->
  baseline (set_attendanceSessionsPresent (Some v) s).
Proof.
  intros Hv [Hposs _]. split; [exact Hposs|].
  exists v. split; [reflexivity | exact Hv].
Qed.

Lemma Forall_update_where (A : Type) (P : A -> Prop) (p : A -> bool)
  (f : A -> A) (rows : list A) :
  (forall r, P r -> P (f r)) ->
  Forall P rows -> Forall P (update_where p f rows).
Proof.
  intros Hf Hrows. unfold update_where.
  induction Hrows as [|r rows Hr _ IH]; simpl; constructor; [|exact IH].
  destruct (p r); auto.
Qed.

Lemma Forall_delete_where (A : Type) (P : A -> Prop) (p : A -> bool)
  (rows : list A) :
  Forall P rows -> Forall P (delete_where p rows).
Proof.
  intros Hrows. unfold delete_where.
  apply Forall_forall. intros r Hr. apply filter_In in Hr.
  destruct Hr as [Hr _]. rewrite Forall_forall in Hrows. auto.
Qed.

Lemma recordAttendance_baseline (st : Store) (now : Z)
  (record : InsertAttendance.t) :
  Forall baseline (students st) ->
  Forall baseline (students (fst (recordAttendance st now record))).
Proof.
  intros Hinv. rewrite recordAttendance_eq. simpl.
  destruct (getStudent st (InsertAttendance.studentId record))
    as [student|] eqn:Hget; [|exact Hinv].
  apply getStudent_In in Hget. destruct Hget as [Hin _].
  rewrite Forall_forall in Hinv.
  destruct (Hinv _ Hin) as [_ [p [Hp Hrange]]].
  apply Forall_update_where; [|apply Forall_forall; exact Hinv].
  intros r Hr. apply baseline_set_present; [|exact Hr].
  rewrite Hp. simpl.
  destruct (negb _ && negb _); lia.
Qed.

Lemma createBehaviour_baseline (st : Store) (today : string) (now : Z)
  (record : InsertBehaviour.t) :
  Forall baseline (students st) ->
  Forall baseline (students (fst (createBehaviour st today now record))).
Proof.
  intros Hinv. rewrite createBehaviour_eq.
  destruct (rejection st today record); [exact Hinv|].
  destruct (overflows st record); [exact Hinv|].
  unfold after_update. simpl.
  destruct (getStudent st (InsertBehaviour.studentId record));
    [|exact Hinv].
  apply Forall_update_where; auto using baseline_set_behaviourPoints.
Qed.

Lemma call_baseline (st : Store) (c : Call) :
  Forall baseline (students st) -> Forall baseline (students (call st c)).
Proof.
  intros Hinv. destruct c; simpl; try exact Hinv.
  - apply Forall_app. split; [exact Hinv|].
    constructor; [|constructor].
    split; [reflexivity|]. exists 188. split; [reflexivity | lia].
  - apply Forall_delete_where. exact Hinv.
  - apply recordAttendance_baseline. exact Hinv.
  - apply createBehaviour_baseline. exact Hinv.
Qed.

Lemma run_baseline (calls : list Call) (st : Store) :
  Forall baseline (students st) ->
  Forall baseline (students (run st calls)).
Proof.
  revert st. induction calls as [|c calls IH]; intros st Hinv; simpl.
  - exact Hinv.
  - apply IH. apply call_baseline. exact Hinv.
Qed.

(** C4.  After every sequence of calls on the empty store, every student
    has [0 <= attendanceSessionsPresent <= attendanceSessionsPossible]. *)
Theorem attendance_counters_in_range :
  forall (calls : list Call),
    Forall counters_in_range (students (run empty_store calls)).
Proof.
  intros calls.
  apply Forall_impl with (P := baseline); [exact baseline_in_range|].
  apply run_baseline. constructor.
Qed.

(** C2.  In every store reached by calls, for an existing student,
    [recordAttendance] with status PRESENT or LATE leaves
    [attendanceSessionsPresent] as it is, and with any other status replaces
    it by the maximum of 0 and its value minus 1. *)
Theorem recordAttendance_present_counter :
  forall (calls : list Call) (now : Z) (record : InsertAttendance.t)
         (s : Student.t),
    let st := run empty_store calls in
    let sid := InsertAttendance.studentId record in
    getStudent st sid = Some s ->
    exists n s',
      Student.attendanceSessionsPresent s = Some n /\
      getStudent (fst (recordAttendance st now record)) sid = Some s' /\
      Student.attendanceSessionsPresent s' =
        Some (if String.eqb (InsertAttendance.status record) "PRESENT"
                 || String.eqb (InsertAttendance.status record) "LATE"
              then n else Z.max 0 (n - 1)).
Proof.
  intros calls now record s st sid Hget.
  assert (Hbase : baseline s).
  { pose proof (run_baseline calls empty_store (Forall_nil _)) as Hall.
    rewrite Forall_forall in Hall. apply Hall.
    apply (getStudent_In st sid). exact Hget. }
  destruct Hbase as [_ [n [Hn Hrange]]].
  exists n. eexists. split; [exact Hn|].
  rewrite recordAttendance_eq. unfold getStudent at 1. simpl.
  fold sid. rewrite Hget.
  rewrite find_update_same by reflexivity.
  unfold getStudent in Hget. rewrite Hget. simpl.
  split; [reflexivity|]. simpl. rewrite Hn. simpl. f_equal.
  destruct (String.eqb (InsertAttendance.status record) "PRESENT");
    destruct (String.eqb (InsertAttendance.status record) "LATE");
    simpl; lia.
Qed.

Lemma recordAttendance_present_counter_witness :
  exists n s',
    Student.attendanceSessionsPresent
      (Student.mk 1 "Ann" "Lee" "2012-03-04" 7 "7A" "2023-09-01"
                  (Some 188) (Some 188) (Some 0)) = Some n /\
    getStudent
      (fst (recordAttendance (run empty_store [CreateStudent student_A]) 1000
                             (mark 1 "AM" "ABSENT"))) 1 = Some s' /\
    Student.attendanceSessionsPresent s' = Some (Z.max 0 (n - 1)).
Proof.
  apply (recordAttendance_present_counter [CreateStudent student_A] 1000
           (mark 1 "AM" "ABSENT")).
  reflexivity.
Defined.

(** ** [createBehaviour] *)

Lemma rejection_None (st : Store) (today : string)
  (record : InsertBehaviour.t) :
  rejection st today record = None <->
  int4 (InsertBehaviour.studentId record) = true /\
  int4 (InsertBehaviour.points record) = true /\
  guard_fires st today record = false.
Proof.
  unfold rejection.
  destruct (InsertBehaviour.points record >? 0);
    destruct (int4 (InsertBehaviour.studentId record));
    destruct (guard_fires st today record);
    destruct (int4 (InsertBehaviour.points record));
    cbn [negb andb]; split; intros H;
    try discriminate; try (repeat split; reflexivity);
    destruct H as [H1 [H2 H3]]; discriminate.
Qed.

(** A call that returns has passed the guard and the range checks, and has
    run both statements. *)
Lemma createBehaviour_Ok (st st' : Store) (today : string) (now : Z)
  (record : InsertBehaviour.t) (b : Behaviour.t) :
  createBehaviour st today now record = (st', Ok b) ->
  rejection st today record = None /\
  overflows st record = false /\
  st' = after_update st now record /\
  b = inserted_behaviour st now record.
Proof.
  rewrite createBehaviour_eq.
  destruct (rejection st today record); [discriminate|].
  destruct (overflows st record); [discriminate|].
  intros H. injection H as <- <-. repeat split.
Qed.












(** *** The absence guard *)

(** When the guard fires the call throws and the store is the one it was
    given. *)
Lemma createBehaviour_rejected (st : Store) (today : string) (now : Z)
  (record : InsertBehaviour.t) :
  guard_fires st today record = true ->
  exists message, createBehaviour st today now record = (st, Throw message).
Proof.
  intros H. rewrite createBehaviour_eq.
  destruct (rejection st today record) as [message|] eqn:E.
  - exists message. reflexivity.
  - apply rejection_None in E. destruct E as [_ [_ E]]. congruence.
Qed.

(** The guard compares the last mark of the day with the two literals
    ABSENT_UNAUTH and ABSENT_AUTH; none of the statuses listed by the schema
    is one of them. *)
Lemma guard_misses_schema_statuses (st : Store) (today : string)
  (record : InsertBehaviour.t) (lastMark : Attendance.t) :
  last_element
    (filter
       (fun a =>
          (Attendance.studentId a =? InsertBehaviour.studentId record)
          && String.eqb (Attendance.date a) today)
       (attendance st)) = Some lastMark ->
  In (Attendance.status lastMark) schema_absence_statuses ->
  guard_fires st today record = false.
Proof.
  intros Hlast Hin. unfold guard_fires. rewrite Hlast.
  destruct (InsertBehaviour.points record >? 0); [|reflexivity].
  simpl in Hin.
  destruct Hin as [<- | [<- | [<- | []]]]; reflexivity.
Qed.

(** C1.  Student 1 is marked ABSENT this morning (the mark has lowered
    [attendanceSessionsPresent] to 187); a positive award of 5 points on the
    same day is not rejected: the Behaviour row is inserted and the total
    becomes 5. *)
Theorem positive_award_to_absent_student :
  let st := absent_this_morning in
  let today := "2024-01-15" in
  last_element
    (filter
       (fun a => (Attendance.studentId a =? 1)
                 && String.eqb (Attendance.date a) today)
       (attendance st))
  = Some (Attendance.mk 1 1 today "AM" "ABSENT" (Some 1000)) /\
  In "ABSENT" schema_absence_statuses /\
  option_map Student.attendanceSessionsPresent (getStudent st 1)
  = Some (Some 187) /\
  points_of st 1 = Some 0 /\
  exists st',
    createBehaviour st today 3000 (achievement 1)
    = (st', Ok (inserted_behaviour st 3000 (achievement 1))) /\
    behaviour st' = [inserted_behaviour st 3000 (achievement 1)] /\
    points_of st' 1 = Some 5.
Proof.
  simpl. repeat split.
  - left. reflexivity.
  - eexists. repeat split.
Qed.

(** *** The detention threshold *)

(** A successful call returns the same row whatever total it leaves the
    student with: for every total [t] that the column can hold and that the
    record can lead to, there is a store on which the call returns that row
    and leaves the student at [t]. *)
Lemma createBehaviour_row_fits_any_total (st st' : Store) (today : string)
  (now : Z) (record : InsertBehaviour.t) (b : Behaviour.t) (t : Z) :
  createBehaviour st today now record = (st', Ok b) ->
  int4 t = true ->
  int4 (t - InsertBehaviour.points record) = true ->
  exists st2 st2' s2,
    createBehaviour st2 today now record = (st2', Ok b) /\
    getStudent st2' (InsertBehaviour.studentId record) = Some s2 /\
    Student.behaviourPoints s2 = Some t.
Proof.
  intros Hcall Ht _.
  destruct (@createBehaviour_Ok _ _ _ _ _ _ Hcall) as [Hrej [_ [_ ->]]].
  apply rejection_None in Hrej. destruct Hrej as [Hsid [Hpoints _]].
  pose (sid := InsertBehaviour.studentId record).
  pose (s := Student.mk sid "" "" "" 0 "" "" (Some 188) (Some 188)
                        (Some (t - InsertBehaviour.points record))).
  pose (st2 := mkStore [s] (sid + 1) [] 1
                       (behaviour st) (behaviour_seq st) [] 1).
  exists st2, (after_update st2 now record),
         (set_behaviourPoints (Some t) s).
  assert (Hget : getStudent st2 sid = Some s).
  { unfold getStudent. simpl. rewrite Z.eqb_refl. reflexivity. }
  assert (Htotal : new_total st2 record = t).
  { unfold new_total, points_of. fold sid. rewrite Hget. simpl. lia. }
  rewrite createBehaviour_eq.
  assert (Hrej2 : rejection st2 today record = None).
  { apply rejection_None. repeat split; try assumption.
    unfold guard_fires. simpl.
    destruct (InsertBehaviour.points record >? 0); reflexivity. }
  assert (Hover : overflows st2 record = false).
  { unfold overflows. fold sid. rewrite Hget, Htotal, Ht. reflexivity. }
  rewrite Hrej2, Hover. split; [reflexivity|].
  unfold after_update, getStudent. simpl. fold sid.
  rewrite Z.eqb_refl. simpl. rewrite Z.eqb_refl.
  split; [|reflexivity].
  unfold set_behaviourPoints. simpl.
  replace (t - InsertBehaviour.points record + InsertBehaviour.points record)
    with t by lia.
  reflexivity.
Qed.

(** C3 (as stated) fails.  A signal is a property of what a successful call
    hands back to its caller that holds exactly when the new total is at
    most -10.  The same incident returns the same row for a student at 0
    points (new total -10) and for a student at 5 points (new total -5), so
    no such property exists. *)
Lemma no_threshold_signal :
  ~ exists signal : Behaviour.t -> bool,
      forall (st st' : Store) (today : string) (now : Z)
             (record : InsertBehaviour.t) (b : Behaviour.t)
             (s' : Student.t),
        createBehaviour st today now record = (st', Ok b) ->
        getStudent st' (InsertBehaviour.studentId record) = Some s' ->
        (signal b = true <-> orZero (Student.behaviourPoints s') <= -10).
Proof.
  intros [signal Hsignal].
  pose (b := inserted_behaviour zero_points 3000 (disruption 1)).
  assert (H0 : signal b = true <-> -10 <= -10).
  { apply (Hsignal zero_points
             (fst (createBehaviour zero_points "2024-01-15" 3000
                                   (disruption 1)))
             "2024-01-15" 3000 (disruption 1) b
             (Student.mk 1 "Ann" "Lee" "2012-03-04" 7 "7A" "2023-09-01"
                         (Some 188) (Some 188) (Some (-10))));
      reflexivity. }
  assert (H5 : signal b = true <-> -5 <= -10).
  { apply (Hsignal five_points
             (fst (createBehaviour five_points "2024-01-15" 3000
                                   (disruption 1)))
             "2024-01-15" 3000 (disruption 1) b
             (Student.mk 1 "Ann" "Lee" "2012-03-04" 7 "7A" "2023-09-01"
                         (Some 188) (Some 188) (Some (-5))));
      reflexivity. }
  assert (Hraised : signal b = true) by (apply H0; lia).
  apply H5 in Hraised. lia.
Qed.

Lemma Forall2_diag_In (A : Type) (R : A -> A -> Prop) (rows : list A) :
  (forall r, In r rows -> R r r) -> Forall2 R rows rows.
Proof.
  induction rows as [|r rows IH]; intros HR; constructor.
  - apply HR. left. reflexivity.
  - apply IH. intros x Hx. apply HR. right. exact Hx.
Qed.

(** C3 (as amended).  A successful [createBehaviour] hands back the inserted
    row and nothing else: the row is made of the record, the next id and the
    write time, whatever the student's total.  Its only changes are the new
    Behaviour row and the total of the student: the Attendance and Detention
    tables are as before (no Detention is created), a Students row with
    another id is as before, and a row with the record's [studentId] is as
    before but for [behaviourPoints], which is the new total.  For a fresh
    student A the incident of -10 points brings the total to -10. *)
Theorem createBehaviour_returns_the_row :
  (forall (st st' : Store) (today : string) (now : Z)
          (record : InsertBehaviour.t) (b : Behaviour.t),
     createBehaviour st today now record = (st', Ok b) ->
     b = inserted_behaviour st now record /\
     behaviour st' = behaviour st ++ [b] /\
     attendance st' = attendance st /\
     detentions st' = detentions st /\
     Forall2
       (fun s s' =>
          if Student.id s =? InsertBehaviour.studentId record
          then s' = set_behaviourPoints (Some (new_total st record)) s
          else s' = s)
       (students st) (students st')) /\
  (let st := fst (createStudent empty_store student_A) in
   exists st',
     createBehaviour st "2024-01-15" 3000 (disruption 1)
     = (st', Ok (inserted_behaviour st 3000 (disruption 1))) /\
     points_of st 1 = Some 0 /\
     points_of st' 1 = Some (-10) /\
     detentions st' = []).
Proof.
  split.
  - intros st st' today now record b Hcall.
    destruct (@createBehaviour_Ok _ _ _ _ _ _ Hcall) as [_ [_ [-> ->]]].
    unfold after_update. simpl. repeat split.
    unfold new_total, points_of.
    destruct (getStudent st (InsertBehaviour.studentId record))
      as [student|] eqn:Hget.
    + apply update_where_Forall2; intros r Hr; rewrite Hr; reflexivity.
    + apply Forall2_diag_In. intros r Hr.
      unfold getStudent in Hget. apply (find_none _ _ Hget) in Hr.
      simpl in Hr. rewrite Hr. reflexivity.
  - simpl. eexists. repeat split.
Qed.

Lemma createBehaviour_returns_the_row_witness :
  let st' :=
    fst (createBehaviour five_points "2024-01-15" 3000 (disruption 1)) in
  inserted_behaviour five_points 3000 (disruption 1)
  = inserted_behaviour five_points 3000 (disruption 1) /\
  behaviour st'
  = behaviour five_points ++ [inserted_behaviour five_points 3000 (disruption 1)] /\
  attendance st' = attendance five_points /\
  detentions st' = detentions five_points /\
  Forall2
    (fun s s' =>
       if Student.id s =? 1
       then s' = set_behaviourPoints
                   (Some (new_total five_points (disruption 1))) s
       else s' = s)
    (students five_points) (students st').
Proof.
  apply (proj1 createBehaviour_returns_the_row five_points
           (fst (createBehaviour five_points "2024-01-15" 3000 (disruption 1)))
           "2024-01-15" 3000 (disruption 1)
           (inserted_behaviour five_points 3000 (disruption 1))).
  reflexivity.
Defined.

(** ** Rollups *)

Lemma getAttendancePercentageToday_no_students (st : Store) (today : string) :
  students st = [] -> getAttendancePercentageToday st today = Num 0.
Proof.
  intros H. unfold getAttendancePercentageToday, getStudents. rewrite H.
  reflexivity.
Qed.

Lemma getAttendancePercentageToday_not_NaN (st : Store) (today : string) :
  getAttendancePercentageToday st today <> NaN.
Proof.
  unfold getAttendancePercentageToday.
  destruct (_ =? 0); [discriminate|].
  destruct (round_percentage _ _); discriminate.
Qed.

(** C6.  One student, marked PRESENT in the morning and in the afternoon:
    the source divides the two marks of the day by the one student and
    returns 200, where the share of students with a PRESENT/LATE mark today
    is 100. *)
Theorem attendance_percentage_counts_marks :
  let st := present_all_day in
  let today := "2024-01-15" in
  List.length (students st) = 1%nat /\
  List.length (filter (present_today today) (attendance st)) = 2%nat /\
  List.length (students_marked_today st today) = 1%nat /\
  getAttendancePercentageToday st today = Num 200 /\
  spec_attendancePercentageToday st today = 100.
Proof.
  vm_compute. repeat split.
Qed.

(** The scenario of two students of 7A with full attendance. *)
Lemma getTutorGroupAttendance_two_in_7A :
  map Student.attendanceSessionsPresent (students two_in_7A)
  = [Some 188; Some 188] /\
  getTutorGroupAttendance two_in_7A = [mkGroupAttendance "7A" (Num 100)].
Proof.
  vm_compute. split; reflexivity.
Qed.

(** C7.  Ten students of 7A who attended 1081 of their 1880 sessions
    (57.5%): the source computes [Math.round((1081 / 1880) * 100)], the
    product is just below 57.5, and the result is 57 where
    [round (100 * 1081 / 1880)] is 58. *)
Theorem tutor_group_percentage_rounding :
  let st := ten_in_7A in
  map Student.tutorGroup (students st) = repeat "7A" 10 /\
  total_present (students st) = 1081 /\
  number_mul (number_div (number_of_Z 1081) (number_of_Z 1880))
             (number_of_Z 100)
  = S754_finite false 8092405580431359 (-47) /\
  2 * 8092405580431359 < 115 * 2 ^ 47 /\
  getTutorGroupAttendance st = [mkGroupAttendance "7A" (Num 57)] /\
  spec_group_percentage (students st) = 58.
Proof.
  vm_compute. repeat split.
Qed.

(** ** Ordering by descending id *)

Lemma insert_desc_Permutation (s : Student.t) (l : list Student.t) :
  Permutation (insert_desc s l) (s :: l).
Proof.
  induction l as [|x l IH]; simpl; [reflexivity|].
  destruct (Student.id x <=? Student.id s); [reflexivity|].
  rewrite IH. apply perm_swap.
Qed.

Lemma orderBy_desc_id_Permutation (l : list Student.t) :
  Permutation (orderBy_desc_id l) l.
Proof.
  induction l as [|x l IH]; simpl; [reflexivity|].
  rewrite insert_desc_Permutation. constructor. exact IH.
Qed.

Lemma insert_desc_HdRel (a s : Student.t) (l : list Student.t) :
  id_desc a s -> HdRel id_desc a l -> HdRel id_desc a (insert_desc s l).
Proof.
  intros Has Hal. destruct l as [|x l]; simpl.
  - constructor. exact Has.
  - destruct (Student.id x <=? Student.id s); constructor;
      [exact Has | inversion Hal; assumption].
Qed.

Lemma insert_desc_Sorted (s : Student.t) (l : list Student.t) :
  Sorted id_desc l -> Sorted id_desc (insert_desc s l).
Proof.
  induction 1 as [|x l Hl IH Hx]; simpl.
  - repeat constructor.
  - destruct (Student.id x <=? Student.id s) eqn:E.
    + constructor; [constructor; assumption|].
      constructor. unfold id_desc. apply Z.leb_le. exact E.
    + constructor; [exact IH|].
      apply insert_desc_HdRel; [|exact Hx].
      unfold id_desc. apply Z.leb_gt in E. lia.
Qed.

Lemma orderBy_desc_id_Sorted (l : list Student.t) :
  Sorted id_desc (orderBy_desc_id l).
Proof.
  induction l as [|x l IH]; simpl; [constructor|].
  apply insert_desc_Sorted. exact IH.
Qed.

(** The roster: every student, highest id first. *)
Lemma getStudents_roster (st : Store) :
  Permutation (getStudents st) (students st) /\
  Sorted id_desc (getStudents st).
Proof.
  split; [apply orderBy_desc_id_Permutation | apply orderBy_desc_id_Sorted].
Qed.

(** ** [LIKE] and substrings *)

Lemma is_prefix_spec (needle text : string) :
  is_prefix needle text = true <->
  exists after, text = String.append needle after.
Proof.
  revert text. induction needle as [|a needle IH]; intros text; simpl.
  - split; [intros _; exists text; reflexivity | reflexivity].
  - destruct text as [|b text].
    + split; [discriminate | intros [after H]; discriminate].
    + rewrite andb_true_iff, IH, Ascii.eqb_eq. split.
      * intros [-> [after ->]]. exists after. reflexivity.
      * intros [after H]. injection H as -> ->. split; [reflexivity|].
        exists after. reflexivity.
Qed.

Lemma is_substring_step (needle text : string) :
  is_substring needle text =
  is_prefix needle text ||
  match text with
  | EmptyString => false
  | String _ text' => is_substring needle text'
  end.
Proof. destruct text; reflexivity. Qed.

Lemma is_substring_spec (needle text : string) :
  is_substring needle text = true <-> substring needle text.
Proof.
  unfold substring. induction text as [|b text IH].
  - rewrite is_substring_step, orb_false_r, is_prefix_spec. split.
    + intros [after H]. exists EmptyString, after. exact H.
    + intros [[|c before] [after H]]; [exists after; exact H | discriminate].
  - rewrite is_substring_step, orb_true_iff, is_prefix_spec, IH. split.
    + intros [[after H] | [before [after H]]].
      * exists EmptyString, after. exact H.
      * exists (String b before), after. simpl. rewrite H. reflexivity.
    + intros [[|c before] [after H]].
      * left. exists after. exact H.
      * right. injection H as _ H. exists before, after. exact H.
Qed.

Lemma like_percent (p text : string) :
  like (String "%" p) text =
  like p text ||
  match text with
  | EmptyString => false
  | String _ text' => like (String "%" p) text'
  end.
Proof. destruct text; reflexivity. Qed.

Lemma like_percent_only (text : string) : like "%" text = true.
Proof.
  induction text as [|c text IH]; [reflexivity|].
  rewrite like_percent. simpl in *. exact IH.
Qed.

Lemma like_plain_char (c : ascii) (p text : string) :
  Ascii.eqb c "%" = false -> Ascii.eqb c "_" = false ->
  Ascii.eqb c "\" = false ->
  like (String c p) text =
  match text with
  | EmptyString => false
  | String x text' => Ascii.eqb x c && like p text'
  end.
Proof.
  intros H1 H2 H3. simpl. rewrite H1, H2, H3. reflexivity.
Qed.

Lemma like_plain_prefix (q text : string) :
  plain q = true ->
  like (String.append q "%") text = is_prefix q text.
Proof.
  revert text. induction q as [|c q IH]; intros text Hplain.
  - apply like_percent_only.
  - simpl in Hplain.
    repeat (apply andb_true_iff in Hplain; destruct Hplain as [Hplain ?]).
    repeat match goal with
           | H : negb _ = true |- _ => apply negb_true_iff in H
           end.
    change (String.append (String c q) "%")
      with (String c (String.append q "%")).
    rewrite like_plain_char by assumption.
    destruct text as [|x text]; [reflexivity|]. simpl.
    rewrite IH by assumption. rewrite (Ascii.eqb_sym x c). reflexivity.
Qed.

Lemma like_plain_substring (q text : string) :
  plain q = true ->
  like (String.append "%" (String.append q "%")) text = is_substring q text.
Proof.
  intros Hplain.
  change (String.append "%" (String.append q "%"))
    with (String "%" (String.append q "%")).
  induction text as [|x text IH].
  - rewrite like_percent, is_substring_step.
    rewrite like_plain_prefix by assumption. reflexivity.
  - rewrite like_percent, is_substring_step.
    rewrite like_plain_prefix by assumption. rewrite IH. reflexivity.
Qed.

Lemma lower_ascii_plain (c : ascii) :
  (negb (Ascii.eqb (lower_ascii c) "%") && negb (Ascii.eqb (lower_ascii c) "_")
   && negb (Ascii.eqb (lower_ascii c) "\"))
  = (negb (Ascii.eqb c "%") && negb (Ascii.eqb c "_")
     && negb (Ascii.eqb c "\")).
Proof.
  destruct c as [[] [] [] [] [] [] [] []]; reflexivity.
Qed.

Lemma plain_lower (q : string) : plain (lower q) = plain q.
Proof.
  induction q as [|c q IH]; [reflexivity|]. simpl.
  rewrite IH, lower_ascii_plain. reflexivity.
Qed.

(** ** [searchStudents] *)

Lemma filter_all (A : Type) (p : A -> bool) (l : list A) :
  (forall x, p x = true) -> filter p l = l.
Proof.
  intros Hp. induction l as [|x l IH]; simpl; [reflexivity|].
  rewrite Hp, IH. reflexivity.
Qed.

(** With or without conditions, the result is the filtered table ordered by
    descending id. *)
Lemma searchStudents_eq (st : Store) (query : option string)
  (yearGroup : option Z) (tutorGroup : option string) :
  searchStudents st query yearGroup tutorGroup =
  orderBy_desc_id
    (filter
       (fun s =>
          forallb (fun c => c s) (search_conditions query yearGroup tutorGroup))
       (students st)).
Proof.
  unfold searchStudents.
  destruct (search_conditions query yearGroup tutorGroup) as [|c cs];
    [|reflexivity].
  rewrite filter_all by reflexivity. reflexivity.
Qed.

(** The filters the source applies: a query without [LIKE] metacharacters,
    a year group other than 0 and a non-empty tutor group are applied as the
    specification words them; an empty query matches every name. *)
Lemma search_conditions_spec (query : option string) (yearGroup : option Z)
  (tutorGroup : option string) (s : Student.t) :
  (forall q, query = Some q -> plain q = true) ->
  yearGroup <> Some 0 ->
  tutorGroup <> Some EmptyString ->
  forallb (fun c => c s) (search_conditions query yearGroup tutorGroup)
  = spec_matches query yearGroup tutorGroup s.
Proof.
  intros Hq Hy Hg. unfold search_conditions, spec_matches.
  rewrite !forallb_app, andb_assoc. f_equal; [f_equal|].
  - destruct query as [[|c q]|]; [|cbn [truthy_string forallb]|reflexivity].
    { cbn [truthy_string forallb lower]. rewrite is_substring_step.
      reflexivity. } rewrite andb_true_r. unfold name_condition.
    apply like_plain_substring.
    rewrite plain_lower. apply Hq. reflexivity.
  - destruct yearGroup as [[|y|y]|]; cbn [truthy_number forallb];
      try reflexivity; try apply andb_true_r.
    contradiction Hy. reflexivity.
  - destruct tutorGroup as [[|c g]|]; cbn [truthy_string forallb];
      try reflexivity; try apply andb_true_r.
    contradiction Hg. reflexivity.
Qed.

(** For such filters [searchStudents] returns exactly the students that
    satisfy all of them, highest id first; it returns a list and no store. *)
Lemma searchStudents_spec (st : Store) (query : option string)
  (yearGroup : option Z) (tutorGroup : option string) :
  (forall q, query = Some q -> plain q = true) ->
  yearGroup <> Some 0 ->
  tutorGroup <> Some EmptyString ->
  Permutation (searchStudents st query yearGroup tutorGroup)
              (filter (spec_matches query yearGroup tutorGroup) (students st))
  /\ Sorted id_desc (searchStudents st query yearGroup tutorGroup).
Proof.
  intros Hq Hy Hg. rewrite searchStudents_eq.
  split; [|apply orderBy_desc_id_Sorted].
  rewrite orderBy_desc_id_Permutation.
  rewrite (filter_ext _ (spec_matches query yearGroup tutorGroup));
    [reflexivity|].
  intros s. apply search_conditions_spec; assumption.
Qed.

Lemma searchStudents_no_filters (st : Store) :
  searchStudents st None None None = getStudents st.
Proof. reflexivity. Qed.

(** C9.  Two students, Ann Lee (id 1, year 7, 7A) and Cy Orr (id 2, year 8,
    8B).  The query "_" is a [LIKE] wildcard and selects both, though no name
    contains an underscore; the year group 0 and the tutor group "" are
    dropped as filters and select both, though no student is in year 0 or in
    a tutor group without a name. *)
Theorem searchStudents_dropped_and_wildcard_filters :
  let st := two_years in
  map Student.id (students st) = [1; 2] /\
  map full_name (students st) = ["Ann Lee"; "Cy Orr"] /\
  map Student.yearGroup (students st) = [7; 8] /\
  map Student.tutorGroup (students st) = ["7A"; "8B"] /\
  (map Student.id (searchStudents st (Some "_") None None) = [2; 1] /\
   filter (spec_matches (Some "_") None None) (students st) = []) /\
  (map Student.id (searchStudents st None (Some 0) None) = [2; 1] /\
   filter (spec_matches None (Some 0) None) (students st) = []) /\
  (map Student.id (searchStudents st None None (Some "")) = [2; 1] /\
   filter (spec_matches None None (Some "")) (students st) = []).
Proof.
  vm_compute. repeat split.
Qed.

(** ** [getTutorGroupAttendance] *)







(** The scenario in general: two students, both in 7A, both with 188
    attended sessions. *)
Lemma getTutorGroupAttendance_two_full (st : Store) (a b : Student.t) :
  students st = [a; b] ->
  Student.tutorGroup a = "7A" -> Student.tutorGroup b = "7A" ->
  Student.attendanceSessionsPresent a = Some 188 ->
  Student.attendanceSessionsPresent b = Some 188 ->
  getTutorGroupAttendance st = [mkGroupAttendance "7A" (Num 100)].
Proof.
  intros Hst Ha Hb Hpa Hpb.
  unfold getTutorGroupAttendance, getStudents. rewrite Hst. simpl.
  destruct (Student.id b <=? Student.id a); simpl;
    rewrite ?Ha, ?Hb; simpl;
    unfold group_attendance, group_members; simpl;
    rewrite ?Ha, ?Hb; simpl;
    unfold total_present; simpl; rewrite ?Hpa, ?Hpb; reflexivity.
Qed.

(** ** Rounding in binary64 *)

(** [Math.round((a / b) * 100)] and the rounded exact percentage agree on
    the values met above and differ at some ties: 23 of 40 is 57.5%, the
    quotient 0.575 is not a binary64 number and its product with 100 is
    below 57.5. *)
Lemma round_percentage_samples :
  round_percentage 376 376 = Num (round_half_up (100 * 376) 376) /\
  round_percentage 1 8 = Num (round_half_up (100 * 1) 8) /\
  round_percentage 1 3 = Num (round_half_up (100 * 1) 3) /\
  round_percentage 0 0 = NaN /\
  round_percentage 23 40 = Num 57 /\
  round_half_up (100 * 23) 40 = 58.
Proof.
  vm_compute. repeat split.
Qed.

(** * Further properties *)

(** ** Deleting rows *)

Section DeleteWhere.

Variable A : Type.
Variables p q : A -> bool.

Lemma filter_delete_same (l : list A) : filter p (delete_where p l) = [].
Proof.
  unfold delete_where. induction l as [|x l IH]; simpl; [reflexivity|].
  destruct (p x) eqn:E; simpl; [exact IH|]. rewrite E. exact IH.
Qed.

Lemma find_delete_same (l : list A) : find p (delete_where p l) = None.
Proof.
  unfold delete_where. induction l as [|x l IH]; simpl; [reflexivity|].
  destruct (p x) eqn:E; simpl; [exact IH|]. rewrite E. exact IH.
Qed.

Hypothesis apart : forall x, q x = true -> p x = false.

Lemma filter_delete_other (l : list A) :
  filter q (delete_where p l) = filter q l.
Proof.
  unfold delete_where. induction l as [|x l IH]; simpl; [reflexivity|].
  destruct (p x) eqn:E; simpl.
  - destruct (q x) eqn:Eq; [|exact IH].
    apply apart in Eq. congruence.
  - rewrite IH. reflexivity.
Qed.

Lemma find_delete_other (l : list A) :
  find q (delete_where p l) = find q l.
Proof.
  unfold delete_where. induction l as [|x l IH]; simpl; [reflexivity|].
  destruct (p x) eqn:E; simpl.
  - destruct (q x) eqn:Eq; [|exact IH].
    apply apart in Eq. congruence.
  - rewrite IH. reflexivity.
Qed.

End DeleteWhere.

Lemma Zeqb_apart (A : Type) (key : A -> Z) (a b : Z) (x : A) :
  a <> b -> (key x =? a) = true -> (key x =? b) = false.
Proof.
  intros Hne H. apply Z.eqb_eq in H. apply Z.eqb_neq. lia.
Qed.

(** X1.  [deleteStudent] removes the student and every Attendance,
    Behaviour and Detention row of the student, so the lookups for the id
    find nothing; for any other id the student and the rows found are the
    ones found before. *)
Theorem deleteStudent_cascade :
  forall (st : Store) (id other : Z),
    other <> id ->
    let st' := deleteStudent st id in
    (getStudent st' id = None /\
     getStudentAttendance st' id = [] /\
     getStudentBehaviour st' id = [] /\
     filter (fun d => Detention.studentId d =? id) (detentions st') = []) /\
    (getStudent st' other = getStudent st other /\
     getStudentAttendance st' other = getStudentAttendance st other /\
     getStudentBehaviour st' other = getStudentBehaviour st other /\
     filter (fun d => Detention.studentId d =? other) (detentions st')
     = filter (fun d => Detention.studentId d =? other) (detentions st)).
Proof.
  intros st id other Hne st'. subst st'.
  unfold getStudent, getStudentAttendance, getStudentBehaviour, deleteStudent.
  simpl. split.
  - rewrite find_delete_same, !filter_delete_same. repeat split.
  - rewrite find_delete_other, !filter_delete_other;
      try (intros x; apply Zeqb_apart; exact Hne).
    repeat split.
Qed.

Lemma deleteStudent_cascade_witness :
  let st' := deleteStudent absent_this_morning 1 in
  (getStudent st' 1 = None /\
   getStudentAttendance st' 1 = [] /\
   getStudentBehaviour st' 1 = [] /\
   filter (fun d => Detention.studentId d =? 1) (detentions st') = []) /\
  (getStudent st' 2 = getStudent absent_this_morning 2 /\
   getStudentAttendance st' 2 = getStudentAttendance absent_this_morning 2 /\
   getStudentBehaviour st' 2 = getStudentBehaviour absent_this_morning 2 /\
   filter (fun d => Detention.studentId d =? 2) (detentions st')
   = filter (fun d => Detention.studentId d =? 2)
            (detentions absent_this_morning)).
Proof.
  apply (deleteStudent_cascade absent_this_morning (id := 1) (other := 2)).
  discriminate.
Defined.

(** ** Ids of students *)

Lemma map_id_update_where (p : Student.t -> bool) (f : Student.t -> Student.t)
  (rows : list Student.t) :
  (forall s, Student.id (f s) = Student.id s) ->
  map Student.id (update_where p f rows) = map Student.id rows.
Proof.
  intros Hf. unfold update_where. rewrite map_map. apply map_ext.
  intros s. destruct (p s); [apply Hf | reflexivity].
Qed.

Lemma NoDup_map_filter (A B : Type) (key : A -> B) (p : A -> bool)
  (l : list A) :
  NoDup (map key l) -> NoDup (map key (filter p l)).
Proof.
  induction l as [|x l IH]; simpl; intros Hnd; [constructor|].
  inversion Hnd as [|? ? Hnotin Hnd']; subst.
  destruct (p x); simpl; [|auto].
  constructor; [|auto].
  intros Hin. apply Hnotin. apply in_map_iff in Hin.
  destruct Hin as [y [Hy Hin]]. apply filter_In in Hin.
  apply in_map_iff. exists y. tauto.
Qed.

Lemma fresh_ids_students (st : Store) (rows : list Student.t) :
  map Student.id rows = map Student.id (students st) ->
  fresh_ids st ->
  Forall (fun s => Student.id s < students_seq st) rows /\
  NoDup (map Student.id rows).
Proof.
  intros Hmap [Hlt Hnd]. rewrite Hmap. split; [|exact Hnd].
  apply Forall_forall. intros s Hs.
  assert (Hin : In (Student.id s) (map Student.id (students st))).
  { rewrite <- Hmap. apply in_map. exact Hs. }
  apply in_map_iff in Hin. destruct Hin as [s0 [Heq Hs0]].
  rewrite Forall_forall in Hlt. rewrite <- Heq. apply Hlt. exact Hs0.
Qed.

Lemma call_fresh_ids (st : Store) (c : Call) :
  fresh_ids st -> fresh_ids (call st c).
Proof.
  intros Hinv. pose proof Hinv as [Hlt Hnd].
  destruct c; simpl; try exact Hinv.
  - unfold fresh_ids. simpl. split.
    + apply Forall_app. split.
      * apply (Forall_impl _ (P := fun s => Student.id s < students_seq st));
          [intros; lia | exact Hlt].
      * repeat constructor. simpl. lia.
    + rewrite map_app. simpl. apply NoDup_app; [exact Hnd | | ].
      * repeat constructor. intros [].
      * intros x Hx [<- | []]. apply in_map_iff in Hx.
        destruct Hx as [s [Heq Hs]]. rewrite Forall_forall in Hlt.
        apply Hlt in Hs. lia.
  - unfold fresh_ids, deleteStudent, delete_where. simpl. split.
    + apply Forall_forall. intros s Hs. apply filter_In in Hs.
      rewrite Forall_forall in Hlt. apply Hlt. tauto.
    + apply NoDup_map_filter. exact Hnd.
  - rewrite recordAttendance_eq. unfold fresh_ids. simpl.
    apply (@fresh_ids_students st); [|exact Hinv].
    destruct (getStudent st (InsertAttendance.studentId record));
      [|reflexivity].
    apply map_id_update_where. reflexivity.
  - rewrite createBehaviour_eq.
    destruct (rejection st today record); [exact Hinv|].
    destruct (overflows st record); [exact Hinv|].
    unfold fresh_ids, after_update. simpl.
    apply (@fresh_ids_students st); [|exact Hinv].
    destruct (getStudent st (InsertBehaviour.studentId record));
      [|reflexivity].
    apply map_id_update_where. reflexivity.
Qed.

Lemma run_fresh_ids (calls : list Call) (st : Store) :
  fresh_ids st -> fresh_ids (run st calls).
Proof.
  revert st. induction calls as [|c calls IH]; intros st Hinv; simpl.
  - exact Hinv.
  - apply IH. apply call_fresh_ids. exact Hinv.
Qed.

Lemma empty_store_fresh_ids : fresh_ids empty_store.
Proof. split; constructor. Qed.

Lemma find_app_new (A : Type) (p : A -> bool) (l : list A) (x : A) :
  find p (l ++ [x]) =
  match find p l with
  | Some y => Some y
  | None => if p x then Some x else None
  end.
Proof.
  induction l as [|y l IH]; simpl; [reflexivity|].
  destruct (p y); [reflexivity | exact IH].
Qed.

Lemma fresh_ids_no_student (st : Store) :
  fresh_ids st -> getStudent st (students_seq st) = None.
Proof.
  intros [Hlt _]. unfold getStudent.
  destruct (find _ (students st)) as [s|] eqn:E; [|reflexivity].
  apply find_some in E. destruct E as [Hin Hid].
  rewrite Forall_forall in Hlt. apply Hlt in Hin.
  apply Z.eqb_eq in Hid. lia.
Qed.

(** X2.  In every store reached by calls, [createStudent] returns a student
    whose id no student had, with the counters 188, 188 and 0; the student
    is then found by that id, and no two students share an id. *)
Theorem createStudent_lookup :
  forall (calls : list Call) (insertStudent : InsertStudent.t),
    let st := run empty_store calls in
    let st' := fst (createStudent st insertStudent) in
    let student := snd (createStudent st insertStudent) in
    getStudent st (Student.id student) = None /\
    getStudent st' (Student.id student) = Some student /\
    Student.attendanceSessionsPossible student = Some 188 /\
    Student.attendanceSessionsPresent student = Some 188 /\
    Student.behaviourPoints student = Some 0 /\
    NoDup (map Student.id (students st')).
Proof.
  intros calls insertStudent st st' student.
  pose proof (run_fresh_ids calls empty_store_fresh_ids) as Hinv.
  fold st in Hinv.
  pose proof (fresh_ids_no_student Hinv) as Hnone.
  split; [exact Hnone|]. split.
  - unfold st', getStudent. simpl. rewrite find_app_new.
    unfold getStudent in Hnone. simpl in Hnone. rewrite Hnone. simpl.
    rewrite Z.eqb_refl. reflexivity.
  - repeat split.
    apply (call_fresh_ids (CreateStudent insertStudent) Hinv).
Qed.

(** ** The attendance counter over several calls *)

Lemma recordAttendance_counter (st : Store) (now : Z)
  (record : InsertAttendance.t) (sid : Z) (s : Student.t) (p : Z) :
  getStudent st sid = Some s ->
  Student.attendanceSessionsPresent s = Some p ->
  0 <= p ->
  exists s',
    getStudent (fst (recordAttendance st now record)) sid = Some s' /\
    Student.attendanceSessionsPresent s' =
    Some (Z.max 0 (p - (if counts_as_absence sid (now, record)
                        then 1 else 0))).
Proof.
  intros Hget Hp Hpos. rewrite recordAttendance_eq.
  unfold getStudent at 1. simpl. unfold counts_as_absence. simpl.
  destruct (InsertAttendance.studentId record =? sid) eqn:Esid.
  - apply Z.eqb_eq in Esid. rewrite Esid, Hget.
    rewrite find_update_same by reflexivity.
    unfold getStudent in Hget. rewrite Hget. simpl.
    eexists. split; [reflexivity|]. simpl. rewrite Hp. simpl. f_equal.
    destruct (negb _ && negb _); lia.
  - apply Z.eqb_neq in Esid. exists s. simpl.
    split; [|rewrite Hp; f_equal; lia].
    destruct (getStudent st (InsertAttendance.studentId record)).
    + rewrite find_update_other by (reflexivity || congruence). exact Hget.
    + exact Hget.
Qed.

(** X3.  However many marks are recorded, for this and for other students,
    the counter of a student is its value before minus the number of marks
    of that student whose status is neither PRESENT nor LATE, and 0 when
    there are more such marks than that. *)
Theorem absences_add_up :
  forall (marks : list (Z * InsertAttendance.t)) (st : Store) (sid : Z)
         (s : Student.t) (p : Z),
    getStudent st sid = Some s ->
    Student.attendanceSessionsPresent s = Some p ->
    0 <= p ->
    exists s',
      getStudent (recordAll st marks) sid = Some s' /\
      Student.attendanceSessionsPresent s' =
      Some (Z.max 0
              (p - Z.of_nat
                     (List.length (filter (counts_as_absence sid) marks)))).
Proof.
  induction marks as [|m marks IH]; intros st sid s p Hget Hp Hpos.
  - exists s. split; [exact Hget|]. simpl. rewrite Hp. f_equal. lia.
  - destruct (@recordAttendance_counter st (fst m) (snd m) sid s p Hget Hp Hpos)
      as [s1 [Hget1 Hp1]].
    assert (Hpos1 : 0 <= Z.max 0
                          (p - (if counts_as_absence sid (fst m, snd m)
                                then 1 else 0))) by lia.
    destruct (IH _ _ _ _ Hget1 Hp1 Hpos1) as [s' [Hget' Hp']].
    exists s'. split; [exact Hget'|]. rewrite Hp'. f_equal. simpl filter.
    replace (fst m, snd m) with m by (destruct m; reflexivity).
    destruct (counts_as_absence sid m); simpl List.length; lia.
Qed.

Lemma absences_add_up_witness :
  exists s',
    getStudent
      (recordAll (fst (createStudent empty_store student_A))
                 [(10, mark 1 "AM" "ABSENT"); (20, mark 1 "PM" "LATE");
                  (30, mark 2 "AM" "ABSENT"); (40, mark 1 "AM" "ABSENT")])
      1 = Some s' /\
    Student.attendanceSessionsPresent s' = Some (Z.max 0 (188 - 2)).
Proof.
  exact (@absences_add_up
           [(10, mark 1 "AM" "ABSENT"); (20, mark 1 "PM" "LATE");
            (30, mark 2 "AM" "ABSENT"); (40, mark 1 "AM" "ABSENT")]
           (fst (createStudent empty_store student_A)) 1
           (snd (createStudent empty_store student_A)) 188
           eq_refl eq_refl ltac:(lia)).
Defined.

Lemma find_delete_where_id (id sid : Z) (rows : list Student.t) (s : Student.t) :
  find (fun x => Student.id x =? sid)
       (delete_where (fun x => Student.id x =? id) rows) = Some s ->
  find (fun x => Student.id x =? sid) rows = Some s.
Proof.
  destruct (Z.eq_dec sid id) as [->|Hne].
  - rewrite find_delete_same. discriminate.
  - rewrite find_delete_other; [auto|].
    intros x. apply Zeqb_apart. exact Hne.
Qed.

(** X4.  In every store reached by calls, no call raises the
    [attendanceSessionsPresent] of a student, and a call lowers it by 1 at
    most. *)
Theorem present_never_increases :
  forall (calls : list Call) (c : Call) (sid : Z) (s s' : Student.t),
    let st := run empty_store calls in
    getStudent st sid = Some s ->
    getStudent (call st c) sid = Some s' ->
    exists p p',
      Student.attendanceSessionsPresent s = Some p /\
      Student.attendanceSessionsPresent s' = Some p' /\
      p - 1 <= p' <= p.
Proof.
  intros calls c sid s s' st Hget Hget'.
  assert (Hbase : baseline s).
  { pose proof (run_baseline calls empty_store (Forall_nil _)) as Hall.
    rewrite Forall_forall in Hall. apply Hall.
    apply (getStudent_In st sid). exact Hget. }
  destruct Hbase as [_ [p [Hp Hrange]]].
  exists p.
  assert (Hsame : s' = s -> exists p',
             Student.attendanceSessionsPresent s = Some p /\
             Student.attendanceSessionsPresent s' = Some p' /\
             p - 1 <= p' <= p).
  { intros ->. exists p. repeat split; try assumption; lia. }
  destruct c; simpl in Hget'.
  - apply Hsame. unfold getStudent in Hget', Hget. simpl in Hget'.
    rewrite find_app_new, Hget in Hget'. congruence.
  - apply Hsame. unfold getStudent in Hget', Hget. simpl in Hget'.
    apply find_delete_where_id in Hget'. congruence.
  - destruct (@recordAttendance_counter st now record sid s p Hget Hp)
      as [s1 [Hget1 Hp1]]; [lia|].
    rewrite Hget1 in Hget'. injection Hget' as <-.
    eexists. repeat split; [exact Hp | exact Hp1 | |];
      destruct (counts_as_absence sid (now, record)); lia.
  - rewrite createBehaviour_eq in Hget'.
    destruct (rejection st today record);
      [apply Hsame; simpl in Hget'; congruence|].
    destruct (overflows st record);
      [apply Hsame; unfold getStudent in Hget', Hget; simpl in Hget';
       congruence|].
    unfold getStudent in Hget' at 1. unfold after_update in Hget'.
    simpl in Hget'.
    destruct (getStudent st (InsertBehaviour.studentId record)) as [student|];
      [|apply Hsame; unfold getStudent in Hget; congruence].
    destruct (Z.eq_dec sid (InsertBehaviour.studentId record)) as [->|Hne].
    + rewrite find_update_same in Hget' by reflexivity.
      unfold getStudent in Hget. rewrite Hget in Hget'.
      injection Hget' as <-. exists p. simpl.
      repeat split; try assumption; lia.
    + rewrite find_update_other in Hget' by (reflexivity || congruence).
      apply Hsame. unfold getStudent in Hget. congruence.
  - apply Hsame. unfold getStudent in Hget', Hget. simpl in Hget'. congruence.
  - apply Hsame. unfold getStudent in Hget', Hget. simpl in Hget'. congruence.
  - apply Hsame. congruence.
  - apply Hsame. congruence.
Qed.

Lemma present_never_increases_witness :
  exists p p',
    Student.attendanceSessionsPresent
      (snd (createStudent empty_store student_A)) = Some p /\
    Student.attendanceSessionsPresent
      (set_attendanceSessionsPresent (Some 187)
         (snd (createStudent empty_store student_A))) = Some p' /\
    p - 1 <= p' <= p.
Proof.
  exact (@present_never_increases [CreateStudent student_A]
           (RecordAttendance 1000 (mark 1 "AM" "ABSENT")) 1
           (snd (createStudent empty_store student_A))
           (set_attendanceSessionsPresent (Some 187)
              (snd (createStudent empty_store student_A)))
           eq_refl eq_refl).
Defined.

(** ** More on [createBehaviour] *)

Lemma same_but_points_refl (s : Student.t) : same_but_points s s.
Proof. unfold same_but_points. repeat split. Qed.

Lemma same_but_points_set (v : option Z) (s : Student.t) :
  same_but_points s (set_behaviourPoints v s).
Proof. unfold same_but_points. simpl. repeat split. Qed.

(** X5.  Frame of [createBehaviour], whether it throws or not: the
    Attendance and Detention tables are unchanged, the Behaviour table is
    unchanged or gets the one new row, and row by row the Students table
    changes at most in [behaviourPoints], and only in rows whose id is the
    record's [studentId]. *)
Theorem createBehaviour_frame :
  forall (st : Store) (today : string) (now : Z) (record : InsertBehaviour.t),
    let st' := fst (createBehaviour st today now record) in
    attendance st' = attendance st /\
    detentions st' = detentions st /\
    (behaviour st' = behaviour st \/
     behaviour st' = behaviour st ++ [inserted_behaviour st now record]) /\
    Forall2
      (fun s s' =>
         same_but_points s s' /\
         (Student.id s <> InsertBehaviour.studentId record -> s' = s))
      (students st) (students st').
Proof.
  intros st today now record. rewrite createBehaviour_eq.
  destruct (rejection st today record); simpl;
    [|destruct (overflows st record); simpl].
  - repeat split; [left; reflexivity|].
    apply Forall2_diag. intros r.
    split; [apply same_but_points_refl | reflexivity].
  - repeat split; [right; reflexivity|].
    apply Forall2_diag. intros r.
    split; [apply same_but_points_refl | reflexivity].
  - repeat split; [right; reflexivity|].
    destruct (getStudent st (InsertBehaviour.studentId record)) as [student|].
    + apply update_where_Forall2.
      * intros r Hr. split; [apply same_but_points_set|].
        apply Z.eqb_eq in Hr. intros Hne. contradiction.
      * intros r _. split; [apply same_but_points_refl | reflexivity].
    + apply Forall2_diag. intros r.
      split; [apply same_but_points_refl | reflexivity].
Qed.

Lemma filter_none (A : Type) (p : A -> bool) (l : list A) :
  (forall x, In x l -> p x = false) -> filter p l = [].
Proof.
  induction l as [|x l IH]; simpl; intros H; [reflexivity|].
  rewrite (H x) by (left; reflexivity). apply IH.
  intros y Hy. apply H. right. exact Hy.
Qed.

(** X6.  [createBehaviour] does not throw when the record's [studentId]
    and points and the new total are within the range of the integer
    columns and, besides, the points are zero or negative or the student has
    no mark dated today: it returns the inserted row. *)
Theorem createBehaviour_accepted :
  forall (st : Store) (today : string) (now : Z) (record : InsertBehaviour.t),
    int4 (InsertBehaviour.studentId record) = true ->
    int4 (InsertBehaviour.points record) = true ->
    int4 (new_total st record) = true ->
    InsertBehaviour.points record <= 0 \/
    (forall a, In a (attendance st) ->
               Attendance.studentId a = InsertBehaviour.studentId record ->
               Attendance.date a <> today) ->
    snd (createBehaviour st today now record)
    = Ok (inserted_behaviour st now record).
Proof.
  intros st today now record Hsid Hpoints Htotal H.
  rewrite createBehaviour_eq.
  assert (Hguard : guard_fires st today record = false).
  { unfold guard_fires. destruct H as [Hle | Hmarks].
    - assert ((InsertBehaviour.points record >? 0) = false) as ->
          by (rewrite Z.gtb_ltb; apply Z.ltb_ge; exact Hle).
      reflexivity.
    - rewrite filter_none; [destruct (_ >? 0); reflexivity|].
      intros a Ha. apply andb_false_iff.
      destruct (Attendance.studentId a =? InsertBehaviour.studentId record)
        eqn:E; [right | left; reflexivity].
      apply Z.eqb_eq in E. apply String.eqb_neq. apply Hmarks; assumption. }
  assert (Hrej : rejection st today record = None)
    by (apply rejection_None; auto).
  assert (Hover : overflows st record = false).
  { unfold overflows.
    destruct (getStudent st (InsertBehaviour.studentId record));
      [rewrite Htotal|]; reflexivity. }
  rewrite Hrej, Hover. reflexivity.
Qed.

Lemma createBehaviour_accepted_witness :
  snd (createBehaviour absent_this_morning "2024-01-15" 3000 (disruption 1))
  = Ok (inserted_behaviour absent_this_morning 3000 (disruption 1)).
Proof.
  apply createBehaviour_accepted; try reflexivity.
  left. simpl. lia.
Defined.

Lemma last_element_app (A : Type) (l : list A) (x : A) :
  last_element (l ++ [x]) = Some x.
Proof.
  unfold last_element. rewrite rev_app_distr. reflexivity.
Qed.

(** X7.  When the newest row of the Attendance table is a mark of the
    student dated today, a positive award depends on that mark alone: with
    status ABSENT_UNAUTH or ABSENT_AUTH the call throws and the store is the
    one it was given; with any other status, and the points and the new
    total within the range of the integer columns, the row is inserted and
    returned, whatever the earlier marks of the day were. *)
Theorem newest_mark_decides :
  forall (st : Store) (today : string) (now : Z) (record : InsertBehaviour.t)
         (earlier : list Attendance.t) (newest : Attendance.t),
    attendance st = earlier ++ [newest] ->
    Attendance.studentId newest = InsertBehaviour.studentId record ->
    Attendance.date newest = today ->
    InsertBehaviour.points record > 0 ->
    int4 (InsertBehaviour.studentId record) = true ->
    if String.eqb (Attendance.status newest) "ABSENT_UNAUTH"
       || String.eqb (Attendance.status newest) "ABSENT_AUTH"
    then
      createBehaviour st today now record
      = (st, Throw "Cannot award positive points to an absent student")
    else
      int4 (InsertBehaviour.points record) = true ->
      int4 (new_total st record) = true ->
      snd (createBehaviour st today now record)
      = Ok (inserted_behaviour st now record) /\
      behaviour (fst (createBehaviour st today now record))
      = behaviour st ++ [inserted_behaviour st now record].
Proof.
  intros st today now record earlier newest Hatt Hnewest Hdate Hpos Hsid.
  rewrite createBehaviour_eq.
  assert (Hguard : guard_fires st today record =
                   (String.eqb (Attendance.status newest) "ABSENT_UNAUTH"
                    || String.eqb (Attendance.status newest) "ABSENT_AUTH")).
  { unfold guard_fires.
    assert ((InsertBehaviour.points record >? 0) = true) as ->
        by (apply Z.gtb_lt; lia).
    rewrite Hatt, filter_app. simpl.
    rewrite Hnewest, Hdate, Z.eqb_refl, String.eqb_refl. simpl.
    rewrite last_element_app. reflexivity. }
  destruct (String.eqb (Attendance.status newest) "ABSENT_UNAUTH"
            || String.eqb (Attendance.status newest) "ABSENT_AUTH").
  - unfold rejection. rewrite Hsid, Hguard, andb_false_r. reflexivity.
  - intros Hpoints Htotal.
    assert (Hrej : rejection st today record = None)
      by (apply rejection_None; auto).
    assert (Hover : overflows st record = false).
    { unfold overflows.
      destruct (getStudent st (InsertBehaviour.studentId record));
        [rewrite Htotal|]; reflexivity. }
    rewrite Hrej, Hover. split; reflexivity.
Qed.

Lemma newest_mark_decides_witness :
  let st :=
    fst (recordAttendance (fst (createStudent empty_store student_A)) 1000
                          (mark 1 "AM" "ABSENT_AUTH")) in
  createBehaviour st "2024-01-15" 3000 (achievement 1)
  = (st, Throw "Cannot award positive points to an absent student").
Proof.
  exact (@newest_mark_decides
           (fst (recordAttendance (fst (createStudent empty_store student_A))
                                  1000 (mark 1 "AM" "ABSENT_AUTH")))
           "2024-01-15" 3000 (achievement 1) []
           (Attendance.mk 1 1 "2024-01-15" "AM" "ABSENT_AUTH" (Some 1000))
           eq_refl eq_refl eq_refl eq_refl eq_refl).
Defined.



(** ** Ordered lookups *)

Section OrderBy.

Variable A : Type.
Variable first : A -> A -> bool.

Lemma insert_by_Permutation (x : A) (l : list A) :
  Permutation (insert_by first x l) (x :: l).
Proof.
  induction l as [|y l IH]; simpl; [reflexivity|].
  destruct (first x y); [reflexivity|].
  rewrite IH. apply perm_swap.
Qed.

Lemma orderBy_Permutation (l : list A) : Permutation (orderBy first l) l.
Proof.
  induction l as [|x l IH]; simpl; [reflexivity|].
  rewrite insert_by_Permutation. constructor. exact IH.
Qed.

Hypothesis first_total : forall x y, first x y = false -> first y x = true.




End OrderBy.




(** ** Detentions *)

Lemma length_delete_where (A : Type) (p : A -> bool) (l : list A) :
  (List.length (delete_where p l) + List.length (filter p l))%nat
  = List.length l.
Proof.
  unfold delete_where. induction l as [|x l IH]; simpl; [reflexivity|].
  destruct (p x); simpl; lia.
Qed.

(** X9.  [getDetentionsThisWeek] is the number of rows [getDetentions]
    returns, whatever their dates; [createDetention] raises it by 1,
    [deleteStudent] lowers it by the number of detentions of the student,
    and no other call changes it. *)
Theorem detentions_counted :
  forall (st : Store) (c : Call),
    getDetentionsThisWeek st = Z.of_nat (List.length (getDetentions st)) /\
    getDetentionsThisWeek (call st c) =
    match c with
    | CreateDetention _ => getDetentionsThisWeek st + 1
    | DeleteStudent id =>
        getDetentionsThisWeek st
        - Z.of_nat
            (List.length
               (filter (fun d => Detention.studentId d =? id) (detentions st)))
    | _ => getDetentionsThisWeek st
    end.
Proof.
  intros st c. unfold getDetentionsThisWeek. split.
  - unfold getDetentions.
    rewrite (Permutation_length (orderBy_Permutation _ (detentions st))).
    reflexivity.
  - destruct c; simpl; try reflexivity.
    + pose proof (length_delete_where
                    (fun d => Detention.studentId d =? id) (detentions st)).
      lia.
    + rewrite recordAttendance_eq. reflexivity.
    + rewrite createBehaviour_eq.
      destruct (rejection st today record); [reflexivity|].
      destruct (overflows st record); reflexivity.
    + rewrite length_app. simpl. lia.
    + unfold update_where. rewrite length_map. reflexivity.
Qed.




Lemma apply_updates_twice (u : PartialDetention.t) (d : Detention.t) :
  apply_updates u (apply_updates u d) = apply_updates u d.
Proof.
  unfold apply_updates. simpl.
  destruct u as [[?|] [?|] [?|] [?|] [?|] [?|] [?|]]; reflexivity.
Qed.

Lemma update_where_twice (A : Type) (p : A -> bool) (f : A -> A)
  (rows : list A) :
  (forall r, p (f r) = p r) -> (forall r, f (f r) = f r) ->
  update_where p f (update_where p f rows) = update_where p f rows.
Proof.
  intros Hp Hf. unfold update_where. rewrite map_map. apply map_ext.
  intros r. destruct (p r) eqn:E.
  - rewrite Hp, E. apply Hf.
  - rewrite E. reflexivity.
Qed.

(** X11.  [updateDetention] is idempotent: applying the same updates to
    the same id a second time returns the same row and leaves the store as
    the first call left it. *)
Theorem updateDetention_idempotent :
  forall (st : Store) (id : Z) (updates : PartialDetention.t),
    has_updates updates = true ->
    updateDetention (fst (updateDetention st id updates)) id updates
    = updateDetention st id updates.
Proof.
  intros st id updates _. unfold updateDetention. simpl.
  rewrite update_where_twice;
    [reflexivity | reflexivity | apply apply_updates_twice].
Qed.

Lemma updateDetention_idempotent_witness :
  let updates :=
    PartialDetention.mk None None None None None (Some "ATTENDED") None in
  let st :=
    fst (createDetention two_in_7A
           (InsertDetention.mk 1 "LUNCH" "2024-01-16" "12:30" "Room 4"
                               None None)) in
  updateDetention (fst (updateDetention st 1 updates)) 1 updates
  = updateDetention st 1 updates.
Proof.
  apply updateDetention_idempotent. reflexivity.
Defined.

(** ** Search results and group entries *)

Lemma spec_matches_iff (query : option string) (yearGroup : option Z)
  (tutorGroup : option string) (s : Student.t) :
  spec_matches query yearGroup tutorGroup s = true <->
  (forall q, query = Some q -> substring (lower q) (lower (full_name s))) /\
  (forall y, yearGroup = Some y -> Student.yearGroup s = y) /\
  (forall g, tutorGroup = Some g -> Student.tutorGroup s = g).
Proof.
  unfold spec_matches. rewrite !andb_true_iff.
  assert (Hq : (match query with
                | Some q => is_substring (lower q) (lower (full_name s))
                | None => true
                end = true) <->
               (forall q, query = Some q ->
                          substring (lower q) (lower (full_name s)))).
  { destruct query as [q|].
    - rewrite is_substring_spec. split.
      + intros H q' Hq'. injection Hq' as <-. exact H.
      + intros H. apply H. reflexivity.
    - split; [discriminate | reflexivity]. }
  assert (Hy : (match yearGroup with
                | Some y => Student.yearGroup s =? y
                | None => true
                end = true) <->
               (forall y, yearGroup = Some y -> Student.yearGroup s = y)).
  { destruct yearGroup as [y|].
    - rewrite Z.eqb_eq. split.
      + intros H y' Hy'. injection Hy' as <-. exact H.
      + intros H. apply H. reflexivity.
    - split; [discriminate | reflexivity]. }
  assert (Hg : (match tutorGroup with
                | Some g => String.eqb (Student.tutorGroup s) g
                | None => true
                end = true) <->
               (forall g, tutorGroup = Some g -> Student.tutorGroup s = g)).
  { destruct tutorGroup as [g|].
    - rewrite String.eqb_eq. split.
      + intros H g' Hg'. injection Hg' as <-. exact H.
      + intros H. apply H. reflexivity.
    - split; [discriminate | reflexivity]. }
  rewrite Hq, Hy, Hg. tauto.
Qed.

(** X12.  Take ASCII texts: the query, if any, and the names of the
    students.  For a query without the characters %, _ and backslash, a
    year group other than 0 and a tutor group other than the empty string
    (each of them possibly missing), [searchStudents] returns the students
    whose lower-cased full name contains the lower-cased query, whose year
    group is the given one and whose tutor group is the given one, and no
    other; the result is ordered by descending id and is not longer than
    the table. *)
Theorem searchStudents_members :
  forall (st : Store) (query : option string) (yearGroup : option Z)
         (tutorGroup : option string),
    (forall q, query = Some q -> plain q = true /\ ascii_text q = true) ->
    (forall s, In s (students st) -> ascii_text (full_name s) = true) ->
    yearGroup <> Some 0 ->
    tutorGroup <> Some EmptyString ->
    let result := searchStudents st query yearGroup tutorGroup in
    (forall s,
       In s result <->
       In s (students st) /\
       (forall q, query = Some q ->
                  substring (lower q) (lower (full_name s))) /\
       (forall y, yearGroup = Some y -> Student.yearGroup s = y) /\
       (forall g, tutorGroup = Some g -> Student.tutorGroup s = g)) /\
    Sorted id_desc result /\
    (List.length result <= List.length (students st))%nat.
Proof.
  intros st query yearGroup tutorGroup Hq _ Hy Hg result.
  assert (Hplain : forall q, query = Some q -> plain q = true)
    by (intros q Hquery; apply (Hq q Hquery)).
  destruct (@searchStudents_spec st query yearGroup tutorGroup Hplain Hy Hg)
    as [Hperm Hsorted].
  fold result in Hperm, Hsorted.
  split; [|split; [exact Hsorted|]].
  - intros s. rewrite <- spec_matches_iff, <- filter_In. split.
    + apply Permutation_in. exact Hperm.
    + apply Permutation_in. apply Permutation_sym. exact Hperm.
  - rewrite (Permutation_length Hperm). apply filter_length_le.
Qed.

Lemma searchStudents_members_witness :
  let result := searchStudents two_years (Some "LEE") (Some 7) None in
  (forall s,
     In s result <->
     In s (students two_years) /\
     (forall q, Some "LEE" = Some q ->
                substring (lower q) (lower (full_name s))) /\
     (forall y, Some 7 = Some y -> Student.yearGroup s = y) /\
     (forall g : string, None = Some g -> Student.tutorGroup s = g)) /\
  Sorted id_desc result /\
  (List.length result <= List.length (students two_years))%nat.
Proof.
  apply (@searchStudents_members two_years (Some "LEE") (Some 7) None).
  - intros q Hq. injection Hq as <-. split; reflexivity.
  - intros s [<- | [<- | []]]; reflexivity.
  - discriminate.
  - discriminate.
Defined.




(** ** Users *)

Lemma existsb_find (A : Type) (p : A -> bool) (l : list A) :
  existsb p l = match find p l with Some _ => true | None => false end.
Proof.
  induction l as [|x l IH]; simpl; [reflexivity|].
  destruct (p x); [reflexivity | exact IH].
Qed.

(** The two outcomes of [createUser]. *)
Lemma createUser_eq (reg : Registry) (insertUser : InsertUser.t) :
  createUser reg insertUser =
  match getUserByUsername reg (InsertUser.username insertUser) with
  | Some _ =>
      (mkRegistry (users reg) (users_seq reg + 1)
                  (timetables reg) (timetables_seq reg),
       Throw username_taken)
  | None =>
      let user :=
        User.mk (users_seq reg)
          (InsertUser.username insertUser) (InsertUser.password insertUser)
          (match InsertUser.name insertUser with
           | Some v => v
           | None => "Staff Member"
           end)
          (match InsertUser.role insertUser with
           | Some v => v
           | None => "admin"
           end) in
      (mkRegistry (users reg ++ [user]) (users_seq reg + 1)
                  (timetables reg) (timetables_seq reg),
       Ok user)
  end.
Proof.
  unfold createUser, getUserByUsername. rewrite existsb_find.
  destruct (find _ (users reg)); reflexivity.
Qed.

(** X14.  A successful [createUser] means the user name was free; the new
    user is then the one found under that name, it is the last row of the
    table, and it carries the password as given and the defaults
    "Staff Member" and "admin" for a missing name and role. *)
Theorem createUser_lookup :
  forall (reg reg' : Registry) (insertUser : InsertUser.t) (user : User.t),
    createUser reg insertUser = (reg', Ok user) ->
    getUserByUsername reg (InsertUser.username insertUser) = None /\
    getUserByUsername reg' (InsertUser.username insertUser) = Some user /\
    users reg' = users reg ++ [user] /\
    User.id user = users_seq reg /\
    User.password user = InsertUser.password insertUser /\
    User.name user =
      match InsertUser.name insertUser with
      | Some v => v
      | None => "Staff Member"
      end /\
    User.role user =
      match InsertUser.role insertUser with
      | Some v => v
      | None => "admin"
      end.
Proof.
  intros reg reg' insertUser user Hcall. rewrite createUser_eq in Hcall.
  destruct (getUserByUsername reg (InsertUser.username insertUser)) eqn:E;
    [discriminate|].
  injection Hcall as <- <-. split; [reflexivity|].
  unfold getUserByUsername in *. simpl.
  rewrite find_app_new, E. simpl. rewrite String.eqb_refl.
  repeat split.
Qed.

Lemma createUser_lookup_witness :
  let insertUser := InsertUser.mk "test" "test1234" None None in
  let user := User.mk 1 "test" "test1234" "Staff Member" "admin" in
  getUserByUsername empty_registry "test" = None /\
  getUserByUsername (mkRegistry [user] 2 [] 1) "test" = Some user /\
  [user] = [] ++ [user] /\
  1 = 1 /\
  "test1234" = "test1234" /\
  "Staff Member" = "Staff Member" /\
  "admin" = "admin".
Proof.
  exact (@createUser_lookup empty_registry
           (mkRegistry [User.mk 1 "test" "test1234" "Staff Member" "admin"]
                       2 [] 1)
           (InsertUser.mk "test" "test1234" None None)
           (User.mk 1 "test" "test1234" "Staff Member" "admin")
           eq_refl).
Defined.

Lemma registry_call_users_unique (reg : Registry) (c : RegistryCall) :
  users_unique reg -> users_unique (registry_call reg c).
Proof.
  intros Hinv. pose proof Hinv as [Hlt [Hids Hnames]].
  destruct c; simpl; try exact Hinv.
  - rewrite createUser_eq.
    destruct (getUserByUsername reg (InsertUser.username insertUser)) eqn:E;
      unfold users_unique; simpl.
    + split; [|split; assumption].
      apply (Forall_impl _ (P := fun u => User.id u < users_seq reg));
        [intros; lia | exact Hlt].
    + split; [|split].
      * apply Forall_app. split.
        -- apply (Forall_impl _ (P := fun u => User.id u < users_seq reg));
             [intros; lia | exact Hlt].
        -- repeat constructor. simpl. lia.
      * rewrite map_app. simpl. apply NoDup_app; [exact Hids | | ].
        -- repeat constructor. intros [].
        -- intros x Hx [<- | []]. apply in_map_iff in Hx.
           destruct Hx as [u [Heq Hu]]. rewrite Forall_forall in Hlt.
           apply Hlt in Hu. lia.
      * rewrite map_app. simpl. apply NoDup_app; [exact Hnames | | ].
        -- repeat constructor. intros [].
        -- intros x Hx [<- | []]. apply in_map_iff in Hx.
           destruct Hx as [u [Heq Hu]].
           unfold getUserByUsername in E.
           apply (find_none _ _ E) in Hu. simpl in Hu.
           apply String.eqb_neq in Hu. contradiction.
  - unfold users_unique, deleteUser, delete_where. simpl. split; [|split].
    + apply Forall_forall. intros u Hu. apply filter_In in Hu.
      rewrite Forall_forall in Hlt. apply Hlt. tauto.
    + apply NoDup_map_filter. exact Hids.
    + apply NoDup_map_filter. exact Hnames.
Qed.

Lemma run_registry_users_unique (calls : list RegistryCall) (reg : Registry) :
  users_unique reg -> users_unique (run_registry reg calls).
Proof.
  revert reg. induction calls as [|c calls IH]; intros reg Hinv; simpl.
  - exact Hinv.
  - apply IH. apply registry_call_users_unique. exact Hinv.
Qed.

Lemma empty_registry_users_unique : users_unique empty_registry.
Proof. repeat split; constructor. Qed.

(** X16.  After every sequence of calls on the empty registry, no two
    users share an id and no two users share a user name, and every id is
    below the next value of the sequence. *)
Theorem users_stay_unique :
  forall (calls : list RegistryCall),
    let reg := run_registry empty_registry calls in
    NoDup (map User.id (users reg)) /\
    NoDup (map User.username (users reg)) /\
    Forall (fun u => User.id u < users_seq reg) (users reg).
Proof.
  intros calls reg.
  destruct (run_registry_users_unique calls empty_registry_users_unique)
    as [Hlt [Hids Hnames]].
  auto.
Qed.

Lemma delete_where_none (A : Type) (p : A -> bool) (l : list A) :
  (forall x, In x l -> p x = false) -> delete_where p l = l.
Proof.
  unfold delete_where. intros H. induction l as [|x l IH]; simpl;
    [reflexivity|].
  rewrite (H x) by (left; reflexivity). simpl. f_equal. apply IH.
  intros y Hy. apply H. right. exact Hy.
Qed.

(** X17.  In every registry reached by calls, deleting the user that
    [createUser] has just returned gives back the Users table of before, and
    the user is found by its id in between. *)
Theorem createUser_deleteUser :
  forall (calls : list RegistryCall) (insertUser : InsertUser.t)
         (reg' : Registry) (user : User.t),
    let reg := run_registry empty_registry calls in
    createUser reg insertUser = (reg', Ok user) ->
    getUser reg' (User.id user) = Some user /\
    users (deleteUser reg' (User.id user)) = users reg /\
    getUser (deleteUser reg' (User.id user)) (User.id user) = None.
Proof.
  intros calls insertUser reg' user reg Hcall.
  destruct (run_registry_users_unique calls empty_registry_users_unique)
    as [Hlt _]. fold reg in Hlt.
  rewrite createUser_eq in Hcall.
  destruct (getUserByUsername reg (InsertUser.username insertUser));
    [discriminate|].
  injection Hcall as <- <-. simpl.
  assert (Hold : forall u, In u (users reg) ->
                           (User.id u =? users_seq reg) = false).
  { intros u Hu. rewrite Forall_forall in Hlt. apply Hlt in Hu.
    apply Z.eqb_neq. lia. }
  split; [|split].
  - unfold getUser. simpl. rewrite find_app_new.
    destruct (find _ (users reg)) as [u|] eqn:E.
    + apply find_some in E. destruct E as [Hu Hid].
      rewrite (Hold u Hu) in Hid. discriminate.
    + simpl. rewrite Z.eqb_refl. reflexivity.
  - unfold delete_where. rewrite filter_app. simpl. rewrite Z.eqb_refl.
    simpl. rewrite app_nil_r. apply (delete_where_none _ _ Hold).
  - unfold getUser. simpl. apply find_delete_same.
Qed.

Lemma createUser_deleteUser_witness :
  let user := User.mk 1 "test" "test1234" "Staff Member" "admin" in
  let reg' := mkRegistry [user] 2 [] 1 in
  getUser reg' 1 = Some user /\
  users (deleteUser reg' 1) = [] /\
  getUser (deleteUser reg' 1) 1 = None.
Proof.
  exact (@createUser_deleteUser []
           (InsertUser.mk "test" "test1234" None None)
           (mkRegistry [User.mk 1 "test" "test1234" "Staff Member" "admin"]
                       2 [] 1)
           (User.mk 1 "test" "test1234" "Staff Member" "admin")
           eq_refl).
Defined.

(** ** Timetables *)

(** X18.  After [createTimetable] the timetable of the record's tutor
    group is the one of before followed by the new row, and the timetable
    of every other tutor group is the one of before. *)
Theorem createTimetable_by_group :
  forall (reg : Registry) (record : InsertTimetable.t) (tutorGroup : string),
    getTimetableByGroup (fst (createTimetable reg record)) tutorGroup =
    getTimetableByGroup reg tutorGroup
    ++ (if String.eqb (InsertTimetable.tutorGroup record) tutorGroup
        then [snd (createTimetable reg record)] else []).
Proof.
  intros reg record tutorGroup. unfold getTimetableByGroup. simpl.
  rewrite filter_app. simpl.
  destruct (String.eqb (InsertTimetable.tutorGroup record) tutorGroup);
    reflexivity.
Qed.

Lemma registry_call_timetable_ids (reg : Registry) (c : RegistryCall) :
  timetable_ids_fresh reg -> timetable_ids_fresh (registry_call reg c).
Proof.
  unfold timetable_ids_fresh. intros Hlt.
  destruct c; simpl; try exact Hlt.
  - rewrite createUser_eq.
    destruct (getUserByUsername reg (InsertUser.username insertUser));
      exact Hlt.
  - apply Forall_app. split.
    + apply (Forall_impl _ (P := fun t => Timetable.id t < timetables_seq reg));
        [intros; lia | exact Hlt].
    + repeat constructor. simpl. lia.
  - apply Forall_delete_where. exact Hlt.
Qed.

Lemma run_registry_timetable_ids (calls : list RegistryCall) (reg : Registry) :
  timetable_ids_fresh reg -> timetable_ids_fresh (run_registry reg calls).
Proof.
  revert reg. induction calls as [|c calls IH]; intros reg Hinv; simpl.
  - exact Hinv.
  - apply IH. apply registry_call_timetable_ids. exact Hinv.
Qed.

(** X19.  In every registry reached by calls, [deleteTimetable] of the row
    that [createTimetable] has just returned gives back the Timetables table
    of before; and [deleteTimetable] of any id that no row has changes
    nothing. *)
Theorem createTimetable_deleteTimetable :
  forall (calls : list RegistryCall) (record : InsertTimetable.t) (id : Z),
    let reg := run_registry empty_registry calls in
    (forall t, In t (timetables reg) -> Timetable.id t <> id) ->
    timetables
      (deleteTimetable (fst (createTimetable reg record))
                       (Timetable.id (snd (createTimetable reg record))))
    = timetables reg /\
    deleteTimetable reg id = reg.
Proof.
  intros calls record id reg Habsent.
  pose proof (run_registry_timetable_ids calls
                (Forall_nil _ : timetable_ids_fresh empty_registry)) as Hlt.
  fold reg in Hlt. unfold timetable_ids_fresh in Hlt.
  assert (Hold : forall t, In t (timetables reg) ->
                           (Timetable.id t =? timetables_seq reg) = false).
  { intros t Ht. rewrite Forall_forall in Hlt. apply Hlt in Ht.
    apply Z.eqb_neq. lia. }
  simpl. split.
  - unfold delete_where. rewrite filter_app. simpl. rewrite Z.eqb_refl.
    simpl. rewrite app_nil_r. apply (delete_where_none _ _ Hold).
  - unfold deleteTimetable. rewrite delete_where_none.
    + destruct reg; reflexivity.
    + intros t Ht. apply Z.eqb_neq. apply Habsent. exact Ht.
Qed.

Lemma createTimetable_deleteTimetable_witness :
  let record := InsertTimetable.mk "7A" 1 2 "Maths" "Room 4" 1 in
  let reg := run_registry empty_registry [CreateTimetable record] in
  timetables
    (deleteTimetable (fst (createTimetable reg record))
                     (Timetable.id (snd (createTimetable reg record))))
  = timetables reg /\
  deleteTimetable reg 5 = reg.
Proof.
  apply (@createTimetable_deleteTimetable
           [CreateTimetable (InsertTimetable.mk "7A" 1 2 "Maths" "Room 4" 1)]
           (InsertTimetable.mk "7A" 1 2 "Maths" "Room 4" 1) 5).
  intros t [<- | []]. discriminate.
Defined.

(** ** [buildUrl] *)

Lemma is_prefix_placeholder_without (key text : string) :
  without ":" text = true ->
  is_substring (placeholder key) text = false.
Proof.
  unfold placeholder. induction text as [|x text IH]; intros H.
  - reflexivity.
  - simpl in H. apply andb_true_iff in H. destruct H as [Hx Ht].
    rewrite is_substring_step, (IH Ht), orb_false_r. cbn [is_prefix].
    apply negb_true_iff in Hx. rewrite (Ascii.eqb_sym ":" x), Hx.
    reflexivity.
Qed.

(** X20.  A path without a colon has no placeholder: [buildUrl] returns
    it as it is, whatever the parameters. *)
Theorem buildUrl_without_placeholder :
  forall (path : string) (params : option (list (string * string))),
    without ":" path = true ->
    buildUrl path params = path.
Proof.
  intros path [entries|] Hpath; [|reflexivity]. simpl.
  induction entries as [|entry entries IH]; simpl; [reflexivity|].
  unfold includes at 2.
  rewrite is_prefix_placeholder_without by exact Hpath. exact IH.
Qed.

Lemma buildUrl_without_placeholder_witness :
  buildUrl "/api/students" (Some [("id", "7"); ("key", "$&")])
  = "/api/students".
Proof.
  apply buildUrl_without_placeholder. reflexivity.
Defined.

Lemma drop_append (a b : string) :
  drop (String.length a) (String.append a b) = b.
Proof.
  induction a as [|c a IH]; simpl; [destruct b; reflexivity | exact IH].
Qed.

Lemma is_prefix_append (a b : string) :
  is_prefix a (String.append a b) = true.
Proof.
  induction a as [|c a IH]; simpl; [reflexivity|].
  rewrite Ascii.eqb_refl. exact IH.
Qed.

Lemma split_first_first (pattern after : string) (before : string) :
  (forall k, (k < String.length before)%nat ->
     is_prefix pattern
       (drop k (String.append before (String.append pattern after)))
     = false) ->
  split_first pattern (String.append before (String.append pattern after))
  = Some (before, after).
Proof.
  induction before as [|c before IH]; intros Hearlier.
  - simpl String.append.
    assert (Hsplit : forall text,
               split_first pattern text =
               if is_prefix pattern text
               then Some (EmptyString, drop (String.length pattern) text)
               else match text with
                    | EmptyString => None
                    | String c text' =>
                        match split_first pattern text' with
                        | Some (b, a) => Some (String c b, a)
                        | None => None
                        end
                    end) by (intros []; reflexivity).
    rewrite Hsplit, is_prefix_append, drop_append. reflexivity.
  - change (String.append (String c before) (String.append pattern after))
      with (String c (String.append before (String.append pattern after)))
      in *.
    pose proof (Hearlier O ltac:(simpl; lia)) as H0. simpl drop in H0.
    cbn [split_first]. rewrite H0, IH; [reflexivity|].
    intros k Hk. apply (Hearlier (S k)). simpl. lia.
Qed.

Lemma get_substitution_plain (matched before after template : string) :
  without "$" template = true ->
  get_substitution matched before after template = template.
Proof.
  induction template as [|c template IH]; intros H; [reflexivity|].
  simpl in H. apply andb_true_iff in H. destruct H as [Hc Ht].
  apply negb_true_iff in Hc. simpl. rewrite Hc, (IH Ht). reflexivity.
Qed.

Lemma is_substring_middle (pattern before after : string) :
  is_substring pattern
    (String.append before (String.append pattern after)) = true.
Proof.
  apply is_substring_spec. exists before, after. reflexivity.
Qed.

(** X21.  With one parameter whose value has no dollar sign, [buildUrl]
    replaces the first occurrence of the placeholder (a colon followed by
    the key) by the value and keeps the text before and after it, later
    occurrences included. *)
Theorem buildUrl_replaces_first :
  forall (before after key value : string),
    let path :=
      String.append before (String.append (placeholder key) after) in
    (forall k, (k < String.length before)%nat ->
               is_prefix (placeholder key) (drop k path) = false) ->
    without "$" value = true ->
    buildUrl path (Some [(key, value)])
    = String.append before (String.append value after).
Proof.
  intros before after key value path Hearlier Hvalue. unfold path in *.
  unfold buildUrl. cbn [fold_left fst snd]. unfold includes, replace.
  rewrite is_substring_middle, split_first_first by exact Hearlier.
  rewrite get_substitution_plain by exact Hvalue. reflexivity.
Qed.

Lemma buildUrl_replaces_first_witness :
  buildUrl "/api/students/:id/attendance/:id" (Some [("id", "7")])
  = "/api/students/7/attendance/:id".
Proof.
  apply (@buildUrl_replaces_first "/api/students/" "/attendance/:id"
           "id" "7").
  - intros k Hk.
    do 14 (destruct k as [|k]; [reflexivity|]).
    simpl in Hk. lia.
  - reflexivity.
Defined.

(** X22.  The value is read as a replacement pattern: with the value [$&]
    the placeholder is replaced by itself, so the path comes back
    unchanged, and with the value [$$] a single dollar sign is put in. *)
Theorem buildUrl_dollar_patterns :
  forall (before after key : string),
    let path :=
      String.append before (String.append (placeholder key) after) in
    (forall k, (k < String.length before)%nat ->
               is_prefix (placeholder key) (drop k path) = false) ->
    buildUrl path (Some [(key, "$&")]) = path /\
    buildUrl path (Some [(key, "$$")])
    = String.append before (String.append "$" after).
Proof.
  intros before after key path Hearlier. unfold path in *.
  unfold buildUrl. cbn [fold_left fst snd]. unfold includes, replace.
  rewrite is_substring_middle, split_first_first by exact Hearlier.
  split; [|reflexivity].
  cbn [get_substitution Ascii.eqb Bool.eqb andb].
  f_equal. f_equal.
  generalize (placeholder key). intros p.
  induction p as [|c p IH]; simpl; [reflexivity | rewrite IH; reflexivity].
Qed.

Lemma buildUrl_dollar_patterns_witness :
  buildUrl "/api/students/:id" (Some [("id", "$&")]) = "/api/students/:id" /\
  buildUrl "/api/students/:id" (Some [("id", "$$")]) = "/api/students/$".
Proof.
  apply (@buildUrl_dollar_patterns "/api/students/" "" "id").
  intros k Hk.
  do 14 (destruct k as [|k]; [reflexivity|]).
  simpl in Hk. lia.
Defined.

(** ** Marks and today's percentage *)

Lemma length_getStudents_update (st : Store) (p : Student.t -> bool)
  (f : Student.t -> Student.t) :
  List.length (orderBy_desc_id (update_where p f (students st)))
  = List.length (getStudents st).
Proof.
  unfold getStudents, update_where.
  rewrite !(Permutation_length (orderBy_desc_id_Permutation _)).
  apply length_map.
Qed.

(** X23.  A mark whose status is neither PRESENT nor LATE, or whose date is
    not today (both dates in the form YYYY-MM-DD), does not change today's
    attendance percentage. *)
Theorem mark_not_present_today :
  forall (st : Store) (now : Z) (record : InsertAttendance.t) (today : string),
    (String.eqb (InsertAttendance.status record) "PRESENT"
     || String.eqb (InsertAttendance.status record) "LATE") = false
    \/ (iso_date (InsertAttendance.date record) = true /\
        iso_date today = true /\
        InsertAttendance.date record <> today) ->
    getAttendancePercentageToday (fst (recordAttendance st now record)) today
    = getAttendancePercentageToday st today.
Proof.
  intros st now record today H.
  rewrite recordAttendance_eq. unfold getAttendancePercentageToday.
  cbn [fst attendance].
  assert (Hstudents :
            forall rows seq1 att seq2 beh seq3 det seq4,
              getStudents (mkStore rows seq1 att seq2 beh seq3 det seq4)
              = orderBy_desc_id rows) by reflexivity.
  rewrite Hstudents.
  assert (Hlen :
            List.length
              (orderBy_desc_id
                 match getStudent st (InsertAttendance.studentId record) with
                 | Some student =>
                     update_where
                       (fun s => Student.id s
                                 =? InsertAttendance.studentId record)
                       (set_attendanceSessionsPresent
                          (Some (Z.max 0
                             (orZero (Student.attendanceSessionsPresent student)
                              + (if negb (String.eqb
                                            (InsertAttendance.status record)
                                            "PRESENT")
                                    && negb (String.eqb
                                               (InsertAttendance.status record)
                                               "LATE")
                                 then -1 else 0)))))
                       (students st)
                 | None => students st
                 end)
            = List.length (getStudents st)).
  { destruct (getStudent st (InsertAttendance.studentId record));
      [apply length_getStudents_update | reflexivity]. }
  rewrite Hlen. rewrite filter_app. cbn [filter].
  assert (Hmark :
            present_today today
              (Attendance.mk (attendance_seq st)
                 (InsertAttendance.studentId record)
                 (InsertAttendance.date record)
                 (InsertAttendance.session record)
                 (InsertAttendance.status record) (Some now)) = false).
  { unfold present_today. simpl. destruct H as [-> | [_ [_ Hdate]]].
    - apply andb_false_r.
    - apply String.eqb_neq in Hdate. rewrite Hdate. reflexivity. }
  rewrite Hmark, app_nil_r. reflexivity.
Qed.

Lemma mark_not_present_today_witness :
  getAttendancePercentageToday
    (fst (recordAttendance two_in_7A 1000 (mark 1 "AM" "ABSENT")))
    "2024-01-15"
  = getAttendancePercentageToday two_in_7A "2024-01-15".
Proof.
  apply mark_not_present_today. left. reflexivity.
Defined.
